(** * Workout analytics engine: rest intervals, consistency, trends, streaks

    A shallow embedding of the pure computation layer of the workout
    tracker (hooks/useExerciseConsistencyData.ts, utils/maxRepUtils.ts,
    the streak code of App.tsx and the training percentages of Stats.tsx)
    together with the part of the JavaScript runtime it relies on.

    Conventions of the embedding.
    - A JavaScript number that the code only ever uses as an integer (a
      timestamp in milliseconds, a rep count, a gap in days) is a [Z].  A
      median of gaps, or a difference of two, is a [Q] compared with [==]:
      it is a half-integer, which a double holds exactly, as it holds ten
      times a half-integer and the tenth of five times an integer.  The
      quotients behind the percentages are not of that kind: they are
      Numbers, IEEE 754 doubles with the rounding of double arithmetic.
    - The time value of a [Date] is [option Z]; [None] is NaN, the time
      value of an Invalid Date.
    - The consistency hook is read in any time zone: its Date methods go
      through the local time of [JsLocalDate], with the zone as a
      parameter.  The training percentages of Stats.tsx and the streaks of
      App.tsx are read in a host whose local time is UTC, where the
      calendar day of a timestamp [t] is [t / msPerDay].
    - The clock ([new Date()], [Date.now()]) is an explicit argument [now].
    - [Date.parse] belongs to the host; the engine is parameterised by it
      and [Host.Date_parse] is one concrete instance. *)

From Stdlib Require Import String Ascii.
From Stdlib Require Import ZArith QArith Qround Qabs List Bool Lia.
From Stdlib Require Import Permutation Sorted.
From Stdlib Require Import Floats.
Import ListNotations.

Local Open Scope Z_scope.

(** ** The JavaScript runtime: Number

    A Number is an IEEE 754 binary64 value, here a primitive [float]; its
    operations round to nearest, ties to even, as those of the engine do. *)

Module JsNumber.

Definition Number : Set := float.

(** The Number nearest to an integer; exact up to 2^53 in absolute value.
    Below 2^63 it is the conversion of a machine integer. *)
Definition ofPositive (n : Z) : Number :=
  if n <? 9223372036854775808 then PrimFloat.of_uint63 (Uint63.of_Z n)
  else SF2Prim (binary_normalize prec emax n 0 false).

Definition ofZ (n : Z) : Number :=
  match n with
  | Z0 => 0%float
  | Z.pos _ => ofPositive n
  | Z.neg p => (- ofPositive (Z.pos p))%float
  end.

(** The Number that the quotient of two integers gives; exact when the
    fraction is a Number, as every half-integer median is. *)
Definition ofQ (q : Q) : Number := (ofZ (Qnum q) / ofZ (Z.pos (Qden q)))%float.

(** The exact value of a finite Number; [None] for NaN and the infinities. *)
Definition value (x : Number) : option Q :=
  match Prim2SF x with
  | S754_zero _ => Some 0%Q
  | S754_finite s m e =>
      let n := if s then Z.neg m else Z.pos m in
      Some (if 0 <=? e then inject_Z (n * 2 ^ e) else n # Z.to_pos (2 ^ (- e)))
  | S754_infinity _ | S754_nan => None
  end.

End JsNumber.

(** ** The JavaScript runtime: Math *)

Module JsMath.

(** [Math.round] on a Number, read as the integer that the result is: the
    integer nearest to [x], a tie going up; [None] for NaN and the
    infinities, which [Math.round] returns as they are. *)
Definition roundInteger (x : JsNumber.Number) : option Z :=
  match JsNumber.value x with
  | Some q => Some (Qfloor (q + (1 # 2)))
  | None => None
  end.

(** [Math.round] on a Number, as a Number; an [x] that rounds to zero gives
    the zero of its sign. *)
Definition roundNumber (x : JsNumber.Number) : JsNumber.Number :=
  match roundInteger x with
  | Some n => if n =? 0 then (x * 0)%float else JsNumber.ofZ n
  | None => x
  end.

(** [Math.round] where the argument is held exactly (ten times a
    half-integer): the nearest integer, halves going up. *)
Definition round (x : Q) : Z := Qfloor (x + (1 # 2)).

(** [Math.floor] and [Math.ceil] where the argument is held exactly or
    lies further from an integer than a Number can tell apart. *)
Definition floor (x : Q) : Z := Qfloor x.
Definition ceil (x : Q) : Z := Qceiling x.

(** [Math.min(...xs)] and [Math.max(...xs)] for a non-empty spread; the
    head is passed apart so that the empty spread (Infinity) never arises. *)
Definition min_of (x : Z) (xs : list Z) : Z := fold_left Z.min xs x.
Definition max_of (x : Z) (xs : list Z) : Z := fold_left Z.max xs x.

End JsMath.

(** ** The JavaScript runtime: Array.prototype.sort

    [sort] is stable.  A comparator returns a number; a NaN result counts
    as 0, which is why comparators here return [Z] and the callers map NaN
    to 0 themselves. *)

Module JsArray.

Section Sort.
Context {A : Type}.
Variable cmp : A -> A -> Z.

Fixpoint insert (x : A) (l : list A) : list A :=
  match l with
  | [] => [x]
  | h :: t => if cmp x h <=? 0 then x :: h :: t else h :: insert x t
  end.

Definition sort (l : list A) : list A := fold_right insert [] l.
End Sort.

(** The comparator [(a, b) => a - b] on numbers. *)
Definition numeric (a b : Z) : Z := a - b.

(** [xs[i]] for an index inside the array. *)
Definition at_ (xs : list Z) (i : Z) : Z := nth (Z.to_nat i) xs 0.

(** [slice(from)] and [slice(0, to)] for indices inside the array. *)
Definition slice_from {A} (l : list A) (from : nat) : list A := skipn from l.
Definition slice_to {A} (l : list A) (to : nat) : list A := firstn to l.

End JsArray.

(** ** The JavaScript runtime: Date

    The calendar of ECMAScript on time values (Day, TimeWithinDay, MakeDay
    and the year, month, date and weekday of a time value), under the names
    of the Date methods that they are in a host whose local time is UTC. *)

Module JsDate.

Definition msPerDay : Z := 1000 * 60 * 60 * 24.

(** Time value of a Date; [None] is NaN. *)
Definition time := option Z.

Definition Day (tv : Z) : Z := tv / msPerDay.
Definition TimeWithinDay (tv : Z) : Z := tv mod msPerDay.

(** Proleptic Gregorian calendar on day numbers (day 0 is 1 January 1970).
    Months are 1..12 here and 0..11 in the Date methods below. *)
Definition civil_from_days (z : Z) : Z * Z * Z :=
  let z := z + 719468 in
  let era := z / 146097 in
  let doe := z - era * 146097 in
  let yoe := (doe - doe / 1460 + doe / 36524 - doe / 146096) / 365 in
  let doy := doe - (365 * yoe + yoe / 4 - yoe / 100) in
  let mp := (5 * doy + 2) / 153 in
  let d := doy - (153 * mp + 2) / 5 + 1 in
  let m := if mp <? 10 then mp + 3 else mp - 9 in
  let y := yoe + era * 400 in
  ((if m <=? 2 then y + 1 else y), m, d).

Definition days_from_civil (y m d : Z) : Z :=
  let y := if m <=? 2 then y - 1 else y in
  let era := y / 400 in
  let yoe := y - era * 400 in
  let doy := (153 * (if 2 <? m then m - 3 else m + 9) + 2) / 5 + d - 1 in
  let doe := yoe * 365 + yoe / 4 - yoe / 100 + doy in
  era * 146097 + doe - 719468.

(** ECMAScript MakeDay: month and date may lie outside their usual range
    and carry over. *)
Definition MakeDay (year month date : Z) : Z :=
  let ym := year + month / 12 in
  let mn := month mod 12 in
  days_from_civil ym (mn + 1) 1 + date - 1.

Definition getFullYear (tv : Z) : Z := fst (fst (civil_from_days (Day tv))).
Definition getMonth (tv : Z) : Z := snd (fst (civil_from_days (Day tv))) - 1.
Definition getDate (tv : Z) : Z := snd (civil_from_days (Day tv)).

(** 0 is Sunday; 1 January 1970 was a Thursday. *)
Definition getDay (tv : Z) : Z := (Day tv + 4) mod 7.

(** [new Date(year, month, date)] and
    [new Date(year, month, date, hours, minutes, seconds)]; a year from 0
    to 99 is read as 1900 + year. *)
Definition fullYear (year : Z) : Z :=
  if (0 <=? year) && (year <=? 99) then 1900 + year else year.
Definition ofYMD (year month date : Z) : Z :=
  MakeDay (fullYear year) month date * msPerDay.
Definition ofYMDhms (year month date h mi s : Z) : Z :=
  MakeDay (fullYear year) month date * msPerDay + h * 3600000 + mi * 60000 + s * 1000.

Definition setDate (tv date : Z) : Z :=
  MakeDay (getFullYear tv) (getMonth tv) date * msPerDay + TimeWithinDay tv.
Definition setMonth (tv month : Z) : Z :=
  MakeDay (getFullYear tv) month (getDate tv) * msPerDay + TimeWithinDay tv.
(** [setHours(0, 0, 0, 0)]. *)
Definition startOfDay (tv : Z) : Z := Day tv * msPerDay.

(** [a >= b], [a <= b] and [a < b] on Dates compare time values; any
    comparison with NaN is false. *)
Definition ge (a b : time) : bool :=
  match a, b with Some x, Some y => y <=? x | _, _ => false end.
Definition le (a b : time) : bool :=
  match a, b with Some x, Some y => x <=? y | _, _ => false end.
Definition lt (a b : time) : bool :=
  match a, b with Some x, Some y => x <? y | _, _ => false end.

(** [a.getTime() - b.getTime()] as a sort comparator: NaN counts as 0. *)
Definition compareTime (a b : time) : Z :=
  match a, b with Some x, Some y => x - y | _, _ => 0 end.

(** *** toDateString: "Www Mmm DD YYYY" *)

Definition weekdayNames : list string :=
  ["Sun"; "Mon"; "Tue"; "Wed"; "Thu"; "Fri"; "Sat"]%string.
Definition monthNames : list string :=
  ["Jan"; "Feb"; "Mar"; "Apr"; "May"; "Jun";
   "Jul"; "Aug"; "Sep"; "Oct"; "Nov"; "Dec"]%string.

Definition digit (n : Z) : ascii := ascii_of_nat (48 + Z.to_nat (n mod 10)).

(** ToZeroPaddedDecimalString for a non-negative [n]: the last [width]
    digits, with more digits in front when [n] needs them. *)
Fixpoint moreDigits (fuel : nat) (n : Z) (acc : string) : string :=
  match fuel with
  | O => acc
  | S f => if n =? 0 then acc
           else moreDigits f (n / 10) (String (digit n) acc)
  end.

Fixpoint zeroPadded (width : nat) (n : Z) (acc : string) : string :=
  match width with
  | O => moreDigits 18 n acc
  | S w => zeroPadded w (n / 10) (String (digit n) acc)
  end.

Definition toDateStringOf (tv : Z) : string :=
  let yv := getFullYear tv in
  let yearSign : string := if yv <? 0 then "-"%string else EmptyString in
  let paddedYear := zeroPadded 4 (Z.abs yv) EmptyString in
  let weekday := nth (Z.to_nat (getDay tv)) weekdayNames EmptyString in
  let month := nth (Z.to_nat (getMonth tv)) monthNames EmptyString in
  let day := zeroPadded 2 (getDate tv) EmptyString in
  (weekday ++ " " ++ month ++ " " ++ day ++ " " ++ yearSign ++ paddedYear)%string.

Definition toDateString (d : time) : string :=
  match d with
  | Some tv => toDateStringOf tv
  | None => "Invalid Date"
  end.

End JsDate.

(** ** The JavaScript runtime: Date in a time zone

    The methods of a Date read the local time of its time value, and the
    ones that build or change a Date go back from local time to UTC.  The
    zone is the LocalTZA of ECMAScript: [LocalTZA t true] is the offset of
    local time from UTC, in milliseconds, at the UTC time value [t], and
    [LocalTZA t false] the offset at the local time value [t]. *)

Module JsLocalDate.

Section Zone.
Variable LocalTZA : Z -> bool -> Z.

Definition LocalTime (t : Z) : Z := t + LocalTZA t true.
Definition UTC (t : Z) : Z := t - LocalTZA t false.

Definition getFullYear (tv : Z) : Z := JsDate.getFullYear (LocalTime tv).
Definition getMonth (tv : Z) : Z := JsDate.getMonth (LocalTime tv).
Definition getDate (tv : Z) : Z := JsDate.getDate (LocalTime tv).

(** [new Date(year, month, date)] and
    [new Date(year, month, date, hours, minutes, seconds)]. *)
Definition ofYMD (year month date : Z) : Z := UTC (JsDate.ofYMD year month date).
Definition ofYMDhms (year month date h mi s : Z) : Z :=
  UTC (JsDate.ofYMDhms year month date h mi s).

Definition setMonth (tv month : Z) : Z := UTC (JsDate.setMonth (LocalTime tv) month).
(** [setHours(0, 0, 0, 0)]. *)
Definition startOfDay (tv : Z) : Z := UTC (JsDate.startOfDay (LocalTime tv)).

End Zone.

(** A host whose local time is UTC. *)
Definition utc : Z -> bool -> Z := fun _ _ => 0.

(** A zone with one change of clocks: the offset is [before] up to the UTC
    time value [change] and [after] from then on.  A local time that the
    change makes occur twice, or not at all, is read with the offset
    [before]. *)
Definition oneChange (change before after : Z) : Z -> bool -> Z :=
  fun t isUTC =>
    if isUTC then (if t <? change then before else after)
    else (if t <? change + Z.max before after then before else after).

End JsLocalDate.

(** ** One host [Date.parse]

    It reads what [toDateString] writes ("Mon Jan 05 2026", taken as local
    midnight) and answers NaN to everything else.  The engine below never
    depends on this choice: it takes the parser as a parameter; this one
    serves to run the engine on concrete logs. *)

Module Host.

Definition digit_of (c : ascii) : option Z :=
  let n := Z.of_nat (nat_of_ascii c) in
  if (48 <=? n) && (n <=? 57) then Some (n - 48) else None.

Fixpoint number_of (s : string) (acc : Z) : option Z :=
  match s with
  | EmptyString => Some acc
  | String c r =>
      match digit_of c with
      | Some d => number_of r (acc * 10 + d)
      | None => None
      end
  end.

Fixpoint index_of (name : string) (names : list string) (i : Z) : option Z :=
  match names with
  | [] => None
  | n :: r => if String.eqb n name then Some i else index_of name r (i + 1)
  end.

Definition Date_parse (s : string) : JsDate.time :=
  if negb (Nat.eqb (String.length s) 15) then None
  else if negb (String.eqb (substring 3 1 s) " " &&
                String.eqb (substring 7 1 s) " " &&
                String.eqb (substring 10 1 s) " ") then None
  else
    match index_of (substring 0 3 s) JsDate.weekdayNames 0,
          index_of (substring 4 3 s) JsDate.monthNames 0,
          number_of (substring 8 2 s) 0,
          number_of (substring 11 4 s) 0 with
    | Some _, Some month, Some date, Some year =>
        if (1 <=? date) && (date <=? 31)
        then Some (JsDate.MakeDay year month date * JsDate.msPerDay)
        else None
    | _, _, _, _ => None
    end.

End Host.

(** ** types/index.ts: the workout log *)

Module Types.

(** What the [date] field of a stored workout can hold at run time: a Date
    object, the string it was serialised to, or some other value (here a
    number, a raw timestamp). *)
Inductive DateInput : Type :=
| DateObj (tv : JsDate.time)
| DateStr (s : string)
| DateNum (n : Z).

Record WorkoutSet : Type := {
  exerciseId : string;
  reps : Z
}.

Record Workout : Type := {
  date : DateInput;
  sets : list WorkoutSet
}.

Section Parse.
Variable Date_parse : string -> JsDate.time.

(** [new Date(value)]. *)
Definition newDate (value : DateInput) : JsDate.time :=
  match value with
  | DateObj tv => tv
  | DateStr s => Date_parse s
  | DateNum n => Some n
  end.
End Parse.

(** [workout.sets.some(set => set.exerciseId === exerciseId)]. *)
Definition hasExercise (exerciseId : string) (workout : Workout) : bool :=
  existsb (fun set => String.eqb set.(Types.exerciseId) exerciseId) workout.(sets).

End Types.

(** ** hooks/useExerciseConsistencyData.ts *)

Module ConsistencyData.
Import Types.

Inductive PeriodType : Type := FourMonths | CurrentYear | LastYear.
Inductive ConsistencyPattern : Type := Stable | Variable_ | Irregular.
Inductive TrendDirection : Type := improving | declining | stable | insufficient.

Record RestDaysData : Type := {
  rd_date : Z;
  days : Z
}.

Record Trend : Type := {
  direction : TrendDirection;
  percentageChange : JsNumber.Number;
  recentMedian : Q;
  pastMedian : Q
}.

Record ConsistencyData : Type := {
  medianRestDays : Q;
  minRestDays : Z;
  maxRestDays : Z;
  workoutCount : nat;
  pattern : ConsistencyPattern;
  restDaysDistribution : list (Z * Z);
  restDaysData : list RestDaysData;
  trend : option Trend
}.

Record YearSummary : Type := {
  year : Z;
  ys_workoutCount : nat;
  ys_medianRestDays : Q;
  ys_pattern : ConsistencyPattern
}.

Record YearComparisonData : Type := {
  currentYear : YearSummary;
  lastYear : YearSummary;
  workoutChange : Z;
  restDaysChange : Q;
  isImproved : bool
}.

(** A run of the gap arithmetic: it either stays on numbers, or a NaN (the
    time value of an Invalid Date) flows into it.  The embedding follows the
    first kind only; [filterWorkoutsByPeriod] lets no other reach it. *)
Inductive run (A : Type) : Type :=
| Ret (a : A)
| NaNFlow.
Arguments Ret {A} a.
Arguments NaNFlow {A}.

Definition bind {A B} (m : run A) (k : A -> run B) : run B :=
  match m with Ret a => k a | NaNFlow => NaNFlow end.

Notation "x <- m ;; k" := (bind m (fun x => k))
  (at level 61, m at next level, right associativity).

Fixpoint getTimes (dates : list JsDate.time) : run (list Z) :=
  match dates with
  | [] => Ret []
  | Some tv :: rest => tvs <- getTimes rest ;; Ret (tv :: tvs)
  | None :: _ => NaNFlow
  end.

(** [Map.get(k) || 0] and [Map.set(k, v)] on a Map kept in insertion order. *)
Fixpoint Map_get (m : list (Z * Z)) (k : Z) : Z :=
  match m with
  | [] => 0
  | (k', v) :: rest => if k' =? k then v else Map_get rest k
  end.

Fixpoint Map_set (m : list (Z * Z)) (k v : Z) : list (Z * Z) :=
  match m with
  | [] => [(k, v)]
  | (k', v') :: rest =>
      if k' =? k then (k', v) :: rest else (k', v') :: Map_set rest k v
  end.

Definition calculateMedian (values : list Z) : Q :=
  match values with
  | [] => 0
  | _ =>
      let sorted := JsArray.sort JsArray.numeric values in
      let mid := Z.of_nat (length sorted) / 2 in
      if Z.of_nat (length sorted) mod 2 =? 0
      then (inject_Z (JsArray.at_ sorted (mid - 1) + JsArray.at_ sorted mid) / 2)%Q
      else inject_Z (JsArray.at_ sorted mid)
  end.

Definition getConsistencyPattern (restDays : list Z) : ConsistencyPattern :=
  if (length restDays <? 2)%nat then Stable
  else
    let sorted := JsArray.sort JsArray.numeric restDays in
    let q1Index := JsMath.floor (inject_Z (Z.of_nat (length sorted)) * (25 # 100)) in
    let q3Index := JsMath.floor (inject_Z (Z.of_nat (length sorted)) * (75 # 100)) in
    let q1 := JsArray.at_ sorted q1Index in
    let q3 := JsArray.at_ sorted q3Index in
    let iqr := q3 - q1 in
    if iqr <=? 2 then Stable
    else if iqr <=? 7 then Variable_
    else Irregular.

Definition isFourMonths (period : PeriodType) : bool :=
  match period with FourMonths => true | _ => false end.

(** [Math.round(x * 10) / 10]. *)
Definition roundToTenth (x : Q) : Q := (inject_Z (JsMath.round (x * 10)) / 10)%Q.

Definition calculateTrend (restDaysData : list RestDaysData) (period : PeriodType)
  : option Trend :=
  if negb (isFourMonths period) || (length restDaysData <? 4)%nat then None
  else
    let sorted := JsArray.sort (fun a b => a.(rd_date) - b.(rd_date)) restDaysData in
    let midPoint := (length sorted / 2)%nat in
    let recentData := JsArray.slice_from sorted midPoint in
    let pastData := JsArray.slice_to sorted midPoint in
    if (length recentData <? 2)%nat || (length pastData <? 2)%nat then
      Some {| direction := insufficient;
              percentageChange := 0%float;
              recentMedian := calculateMedian (map days recentData);
              pastMedian := calculateMedian (map days pastData) |}
    else
      let recentMedian := calculateMedian (map days recentData) in
      let pastMedian := calculateMedian (map days pastData) in
      let percentageChange :=
        if negb (Qle_bool pastMedian 0)
        then JsMath.roundNumber
               (((JsNumber.ofQ pastMedian - JsNumber.ofQ recentMedian)
                 / JsNumber.ofQ pastMedian) * 100)%float
        else 0%float in
      let direction :=
        if (10 <? percentageChange)%float then improving
        else if (percentageChange <? -10)%float then declining
        else stable in
      Some {| direction := direction;
              percentageChange := percentageChange;
              recentMedian := recentMedian;
              pastMedian := pastMedian |}.

Section WithParser.
Variable Date_parse : string -> JsDate.time.
Variable LocalTZA : Z -> bool -> Z.

Definition safeParseDate (now : Z) (dateInput : DateInput) : JsDate.time :=
  match dateInput with
  | DateObj tv => tv
  | DateStr s => Date_parse s
  | DateNum _ => Some now
  end.

(** One step of the loop of [calculateRestDays]. *)
Definition restDaysBetween (previous current : Z) : RestDaysData :=
  let d1 := JsLocalDate.ofYMD LocalTZA (JsLocalDate.getFullYear LocalTZA current)
                              (JsLocalDate.getMonth LocalTZA current)
                              (JsLocalDate.getDate LocalTZA current) in
  let d2 := JsLocalDate.ofYMD LocalTZA (JsLocalDate.getFullYear LocalTZA previous)
                              (JsLocalDate.getMonth LocalTZA previous)
                              (JsLocalDate.getDate LocalTZA previous) in
  let diffTime := Z.abs (d1 - d2) in
  let diffDays := JsMath.ceil (inject_Z diffTime / inject_Z (1000 * 60 * 60 * 24)) in
  {| rd_date := current; days := diffDays |}.

Fixpoint restDaysLoop (previous : Z) (later : list Z) : list RestDaysData :=
  match later with
  | [] => []
  | current :: rest => restDaysBetween previous current :: restDaysLoop current rest
  end.

Definition sessionDates (now : Z) (workouts : list Workout) (exerciseId : string)
  : list JsDate.time :=
  JsArray.sort JsDate.compareTime
    (map (fun workout => safeParseDate now workout.(date))
         (filter (hasExercise exerciseId) workouts)).

Definition calculateRestDays (now : Z) (workouts : list Workout)
           (exerciseId : string) : run (list RestDaysData) :=
  let sessions := sessionDates now workouts exerciseId in
  if (length sessions <? 2)%nat then Ret []
  else
    times <- getTimes sessions ;;
    match times with
    | [] => Ret []
    | first :: later => Ret (restDaysLoop first later)
    end.

Definition filterWorkoutsByPeriod (now : Z) (workouts : list Workout)
           (period : PeriodType) : list Workout :=
  let currentYear := JsLocalDate.getFullYear LocalTZA now in
  match period with
  | FourMonths =>
      let fourMonthsAgo :=
        JsLocalDate.startOfDay LocalTZA
          (JsLocalDate.setMonth LocalTZA now (JsLocalDate.getMonth LocalTZA now - 4)) in
      filter (fun workout =>
                JsDate.ge (safeParseDate now workout.(date)) (Some fourMonthsAgo))
             workouts
  | CurrentYear =>
      let startOfYear := JsLocalDate.ofYMD LocalTZA currentYear 0 1 in
      filter (fun workout =>
                JsDate.ge (safeParseDate now workout.(date)) (Some startOfYear))
             workouts
  | LastYear =>
      let startOfLastYear := JsLocalDate.ofYMD LocalTZA (currentYear - 1) 0 1 in
      let endOfLastYear :=
        JsLocalDate.ofYMDhms LocalTZA (currentYear - 1) 11 31 23 59 59 in
      filter (fun workout =>
                let date := safeParseDate now workout.(date) in
                JsDate.ge date (Some startOfLastYear) &&
                JsDate.le date (Some endOfLastYear))
             workouts
  end.

Definition useExerciseConsistencyData (now : Z) (workouts : list Workout)
           (exerciseId : string) (period : PeriodType)
  : run (option ConsistencyData) :=
  if String.eqb exerciseId EmptyString then Ret None
  else
    let filteredWorkouts := filterWorkoutsByPeriod now workouts period in
    restDaysData <- calculateRestDays now filteredWorkouts exerciseId ;;
    match restDaysData with
    | [] =>
        let exerciseWorkouts := filter (hasExercise exerciseId) filteredWorkouts in
        Ret (Some {| medianRestDays := 0;
                     minRestDays := 0;
                     maxRestDays := 0;
                     workoutCount := length exerciseWorkouts;
                     pattern := Stable;
                     restDaysDistribution := [];
                     restDaysData := [];
                     trend := None |})
    | first :: others =>
        let restDays := map days restDaysData in
        let medianRestDays := calculateMedian restDays in
        let minRestDays := JsMath.min_of first.(days) (map days others) in
        let maxRestDays := JsMath.max_of first.(days) (map days others) in
        let distribution :=
          fold_left (fun m days => Map_set m days (Map_get m days + 1)) restDays [] in
        let pattern := getConsistencyPattern restDays in
        let trend := calculateTrend restDaysData period in
        let exerciseWorkouts := filter (hasExercise exerciseId) filteredWorkouts in
        Ret (Some {| medianRestDays := roundToTenth medianRestDays;
                     minRestDays := minRestDays;
                     maxRestDays := maxRestDays;
                     workoutCount := length exerciseWorkouts;
                     pattern := pattern;
                     restDaysDistribution := distribution;
                     restDaysData := restDaysData;
                     trend := trend |})
    end.

Definition useExerciseYearComparison (now : Z) (workouts : list Workout)
           (exerciseId : string) : run (option YearComparisonData) :=
  if String.eqb exerciseId EmptyString then Ret None
  else
    let currentYear := JsLocalDate.getFullYear LocalTZA now in
    let lastYear := currentYear - 1 in
    let currentYearWorkouts := filterWorkoutsByPeriod now workouts CurrentYear in
    currentRestDaysData <- calculateRestDays now currentYearWorkouts exerciseId ;;
    let currentRestDays := map days currentRestDaysData in
    let currentWorkouts := filter (hasExercise exerciseId) currentYearWorkouts in
    let lastYearWorkouts_filtered := filterWorkoutsByPeriod now workouts LastYear in
    lastRestDaysData <- calculateRestDays now lastYearWorkouts_filtered exerciseId ;;
    let lastRestDays := map days lastRestDaysData in
    let lastYearWorkoutsList :=
      filter (hasExercise exerciseId) lastYearWorkouts_filtered in
    let currentMedian :=
      if (0 <? length currentRestDays)%nat then calculateMedian currentRestDays else 0%Q in
    let lastMedian :=
      if (0 <? length lastRestDays)%nat then calculateMedian lastRestDays else 0%Q in
    let workoutChange :=
      Z.of_nat (length currentWorkouts) - Z.of_nat (length lastYearWorkoutsList) in
    let restDaysChange := (lastMedian - currentMedian)%Q in
    let isImproved :=
      (0 <? workoutChange) ||
      ((workoutChange =? 0) && negb (Qle_bool restDaysChange 0)) in
    Ret (Some {| currentYear :=
                   {| year := currentYear;
                      ys_workoutCount := length currentWorkouts;
                      ys_medianRestDays := roundToTenth currentMedian;
                      ys_pattern := getConsistencyPattern currentRestDays |};
                 lastYear :=
                   {| year := lastYear;
                      ys_workoutCount := length lastYearWorkoutsList;
                      ys_medianRestDays := roundToTenth lastMedian;
                      ys_pattern := getConsistencyPattern lastRestDays |};
                 workoutChange := workoutChange;
                 restDaysChange := roundToTenth restDaysChange;
                 isImproved := isImproved |}).
End WithParser.

End ConsistencyData.

(** ** utils/maxRepUtils.ts *)

Module MaxRepUtils.
Import Types.

Inductive Timeframe : Type := all | threeMonths.

Record MaxRepRecord : Type := {
  mr_exerciseId : string;
  setPosition : Z;
  maxReps : Z;
  mr_date : JsDate.time
}.

(** [sets.map((set, index) => ({ ...set, position: index + 1 }))]. *)
Definition withPositions (sets : list WorkoutSet) : list (WorkoutSet * Z) :=
  combine sets (map (fun index => Z.of_nat index + 1) (seq 0 (length sets))).

Definition exerciseSetsOf (exerciseId : string) (workout : Workout)
  : list (WorkoutSet * Z) :=
  withPositions
    (filter (fun set => String.eqb set.(Types.exerciseId) exerciseId) workout.(sets)).

Definition setAtPosition (exerciseId : string) (position : Z) (workout : Workout)
  : option (WorkoutSet * Z) :=
  find (fun set => snd set =? position) (exerciseSetsOf exerciseId workout).

Definition cutoffDate (now : Z) (timeframe : option Timeframe) : Z :=
  match timeframe with
  | Some threeMonths => now - 90 * 24 * 60 * 60 * 1000
  | _ => 0
  end.

Section WithParser.
Variable Date_parse : string -> JsDate.time.

(** The body of the [forEach]: [maxRecord] is the variable it assigns. *)
Definition visit (now : Z) (exerciseId : string) (position : Z)
           (timeframe : option Timeframe)
           (maxRecord : option MaxRepRecord) (workout : Workout)
  : option MaxRepRecord :=
  if JsDate.lt (newDate Date_parse workout.(date)) (Some (cutoffDate now timeframe))
  then maxRecord
  else
    match setAtPosition exerciseId position workout with
    | Some (set, _) =>
        if match maxRecord with
           | None => true
           | Some record => record.(maxReps) <? set.(reps)
           end
        then Some {| mr_exerciseId := exerciseId;
                     setPosition := position;
                     maxReps := set.(reps);
                     mr_date := newDate Date_parse workout.(date) |}
        else maxRecord
    | None => maxRecord
    end.

Definition calculateMaxReps (now : Z) (workouts : list Workout) (exerciseId : string)
           (position : Z) (timeframe : option Timeframe) : option MaxRepRecord :=
  fold_left (visit now exerciseId position timeframe) workouts None.

End WithParser.

End MaxRepUtils.

(** ** components/Stats.tsx: training percentage of the current week *)

Module Stats.
Import Types.

(** [Math.round((a / b) * 100)] on two array lengths, as the integer that
    it is; [None] stands for the NaN of 0 / 0 and the Infinity of a
    division of a positive count by 0. *)
Definition percentage (a b : nat) : option Z :=
  JsMath.roundInteger
    ((JsNumber.ofZ (Z.of_nat a) / JsNumber.ofZ (Z.of_nat b)) * 100)%float.

Section WithParser.
Variable Date_parse : string -> JsDate.time.

(** [workouts.some(workout =>
       new Date(workout.date).toDateString() === day.toDateString())]. *)
Definition trainedOn (workouts : list Workout) (day : Z) : bool :=
  existsb (fun workout =>
             String.eqb (JsDate.toDateString (newDate Date_parse workout.(date)))
                        (JsDate.toDateString (Some day)))
          workouts.

Definition getCurrentWeekPercentage (now : Z) (workouts : list Workout) : option Z :=
  let currentDay := JsDate.getDay now in
  let mondayOffset := if currentDay =? 0 then -6 else 1 - currentDay in
  let monday :=
    JsDate.startOfDay (JsDate.setDate now (JsDate.getDate now + mondayOffset)) in
  let daysInWeek :=
    map (fun i => JsDate.setDate monday (JsDate.getDate monday + Z.of_nat i)) (seq 0 7) in
  let workoutDays := length (filter (trainedOn workouts) daysInWeek) in
  let today := now in
  let daysPassedThisWeek := length (filter (fun day => day <=? today) daysInWeek) in
  percentage workoutDays daysPassedThisWeek.

(** The [while (currentDate <= today)] loop shared by the month and the year
    percentage; [fuel] bounds the number of turns. *)
Fixpoint daysUpTo (fuel : nat) (currentDate today : Z) : option (list Z) :=
  if currentDate <=? today then
    match fuel with
    | O => None
    | S fuel' =>
        match daysUpTo fuel' (JsDate.setDate currentDate (JsDate.getDate currentDate + 1))
                       today with
        | Some days => Some (currentDate :: days)
        | None => None
        end
    end
  else Some [].

Definition getCurrentMonthPercentage (fuel : nat) (now : Z) (workouts : list Workout)
  : option (option Z) :=
  let firstDayOfMonth := JsDate.ofYMD (JsDate.getFullYear now) (JsDate.getMonth now) 1 in
  let today := now in
  match daysUpTo fuel firstDayOfMonth today with
  | None => None
  | Some daysInMonth =>
      let workoutDays := length (filter (trainedOn workouts) daysInMonth) in
      Some (percentage workoutDays (length daysInMonth))
  end.

Definition getCurrentYearPercentage (fuel : nat) (now : Z) (workouts : list Workout)
  : option (option Z) :=
  let firstDayOfYear := JsDate.ofYMD (JsDate.getFullYear now) 0 1 in
  let today := now in
  match daysUpTo fuel firstDayOfYear today with
  | None => None
  | Some daysInYear =>
      let workoutDays := length (filter (trainedOn workouts) daysInYear) in
      Some (percentage workoutDays (length daysInYear))
  end.

End WithParser.

End Stats.

(** ** App.tsx: streaks of [calculateStats] *)

Module App.
Import Types.

Record WorkoutStats : Type := {
  totalWorkouts : Z;
  totalSets : Z;
  totalReps : Z;
  currentStreak : Z;
  longestStreak : Z
}.

(** [[...new Set(values)]]: first occurrences, in order. *)
Fixpoint SetOf (seen values : list string) : list string :=
  match values with
  | [] => []
  | v :: rest =>
      if existsb (String.eqb v) seen then SetOf seen rest
      else v :: SetOf (v :: seen) rest
  end.

(** The comparator of [sort()] without argument: strings by code units. *)
Definition defaultCompare (a b : string) : Z :=
  match String.compare a b with
  | Lt => -1
  | Eq => 0
  | Gt => 1
  end.

Section WithParser.
Variable Date_parse : string -> JsDate.time.

(** dateUtils.ts. *)
Definition isToday (now : Z) (date : JsDate.time) : bool :=
  String.eqb (JsDate.toDateString date) (JsDate.toDateString (Some now)).

Definition hasWorkoutOn (sortedWorkouts : list Workout) (checkDate : Z) : bool :=
  existsb (fun w => String.eqb (JsDate.toDateString (newDate Date_parse w.(date)))
                               (JsDate.toDateString (Some checkDate)))
          sortedWorkouts.

(** The [for (let i = 0; i < 365; i++)] loop, [turns] turns of it left. *)
Fixpoint streakLoop (turns : nat) (sortedWorkouts : list Workout)
         (checkDate currentStreak : Z) : Z :=
  match turns with
  | O => currentStreak
  | S turns' =>
      if hasWorkoutOn sortedWorkouts checkDate
      then streakLoop turns' sortedWorkouts
                      (JsDate.setDate checkDate (JsDate.getDate checkDate - 1))
                      (currentStreak + 1)
      else currentStreak
  end.

(** [Math.abs(curr.getTime() - prev.getTime()) / msPerDay === 1]. *)
Definition oneDayApart (prevDate currDate : JsDate.time) : bool :=
  match prevDate, currDate with
  | Some prev, Some curr =>
      Qeq_bool (inject_Z (Z.abs (curr - prev)) / inject_Z (1000 * 60 * 60 * 24)) 1
  | _, _ => false
  end.

(** The loop over [uniqueDates] from index 1 on; the state is
    [(longestStreak, tempStreak)]. *)
Fixpoint longestLoop (previous : string) (later : list string)
         (longestStreak tempStreak : Z) : Z * Z :=
  match later with
  | [] => (longestStreak, tempStreak)
  | current :: rest =>
      if oneDayApart (Date_parse previous) (Date_parse current)
      then longestLoop current rest longestStreak (tempStreak + 1)
      else longestLoop current rest (Z.max longestStreak tempStreak) 1
  end.

Definition calculateStats (now : Z) (workouts : list Workout) : WorkoutStats :=
  let totalWorkouts := Z.of_nat (length workouts) in
  let totalSets :=
    fold_left (fun total workout => total + Z.of_nat (length workout.(sets))) workouts 0 in
  let totalReps :=
    fold_left (fun total workout =>
                 total + fold_left (fun setTotal set => setTotal + set.(reps))
                                   workout.(sets) 0)
              workouts 0 in
  let sortedWorkouts :=
    JsArray.sort (fun a b => JsDate.compareTime (newDate Date_parse b.(date))
                                                (newDate Date_parse a.(date)))
                 workouts in
  let currentStreak :=
    match sortedWorkouts with
    | [] => 0
    | _ =>
        let today := now in
        let checkDate :=
          if negb (existsb (fun w => isToday now (newDate Date_parse w.(date)))
                           sortedWorkouts)
          then JsDate.setDate today (JsDate.getDate today - 1)
          else today in
        streakLoop 365 sortedWorkouts checkDate 0
    end in
  let allDates :=
    map (fun w => JsDate.toDateString (newDate Date_parse w.(date))) sortedWorkouts in
  let uniqueDates := JsArray.sort defaultCompare (SetOf [] allDates) in
  let longestStreak :=
    match uniqueDates with
    | [] => Z.max 0 0
    | first :: later =>
        let '(longestStreak, tempStreak) := longestLoop first later 0 1 in
        Z.max longestStreak tempStreak
    end in
  {| totalWorkouts := totalWorkouts;
     totalSets := totalSets;
     totalReps := totalReps;
     currentStreak := currentStreak;
     longestStreak := longestStreak |}.

End WithParser.

End App.

(** * Properties *)

(** ** The calendar *)

Module JsDateFacts.
Import JsDate.

Lemma year_of_era_bounds (doe : Z) :
  0 <= doe < 146097 ->
  let yoe := (doe - doe / 1460 + doe / 36524 - doe / 146096) / 365 in
  let doy := doe - (365 * yoe + yoe / 4 - yoe / 100) in
  0 <= yoe <= 399 /\ 0 <= doy <= 365.
Proof.
  intros H yoe doy. subst doy yoe. Z.div_mod_to_equations; lia.
Qed.

Lemma days_from_civil_linear (y m d k : Z) :
  days_from_civil y m (d + k) = days_from_civil y m d + k.
Proof. unfold days_from_civil. lia. Qed.

Lemma civil_roundtrip (z : Z) :
  let '(y, m, d) := civil_from_days z in
  days_from_civil y m d = z /\ 1 <= m <= 12.
Proof.
  unfold civil_from_days.
  set (z' := z + 719468).
  set (era := z' / 146097).
  set (doe := z' - era * 146097).
  assert (Hdoe : 0 <= doe < 146097)
    by (subst doe era; Z.div_mod_to_equations; lia).
  pose proof (year_of_era_bounds doe Hdoe) as Hb. cbv zeta in Hb.
  set (yoe := (doe - doe / 1460 + doe / 36524 - doe / 146096) / 365) in *.
  set (doy := doe - (365 * yoe + yoe / 4 - yoe / 100)) in *.
  destruct Hb as [Hyoe Hdoy].
  set (mp := (5 * doy + 2) / 153).
  assert (Hmp : 0 <= mp <= 11) by (subst mp; Z.div_mod_to_equations; lia).
  assert (Hera : (yoe + era * 400) / 400 = era)
    by (Z.div_mod_to_equations; lia).
  unfold days_from_civil.
  destruct (mp <? 10) eqn:E10.
  - apply Z.ltb_lt in E10.
    replace (mp + 3 <=? 2) with false by (symmetry; apply Z.leb_gt; lia).
    replace (2 <? mp + 3) with true by (symmetry; apply Z.ltb_lt; lia).
    rewrite Hera. split; [| lia].
    replace (mp + 3 - 3) with mp by lia.
    replace (yoe + era * 400 - era * 400) with yoe by lia.
    subst doy z' doe. lia.
  - apply Z.ltb_ge in E10.
    replace (mp - 9 <=? 2) with true by (symmetry; apply Z.leb_le; lia).
    replace (2 <? mp - 9) with false by (symmetry; apply Z.ltb_ge; lia).
    replace (yoe + era * 400 + 1 - 1) with (yoe + era * 400) by lia.
    rewrite Hera. split; [| lia].
    replace (mp - 9 + 9) with mp by lia.
    replace (yoe + era * 400 - era * 400) with yoe by lia.
    subst doy z' doe. lia.
Qed.

(** Rebuilding a date from its own fields gives back its day number. *)
Lemma MakeDay_fields (tv : Z) :
  MakeDay (getFullYear tv) (getMonth tv) (getDate tv) = Day tv.
Proof.
  unfold MakeDay, getFullYear, getMonth, getDate.
  pose proof (civil_roundtrip (Day tv)) as H.
  destruct (civil_from_days (Day tv)) as [[y m] d]. cbn [fst snd].
  destruct H as [H Hm].
  replace ((m - 1) / 12) with 0 by (Z.div_mod_to_equations; lia).
  replace ((m - 1) mod 12 + 1) with m by (Z.div_mod_to_equations; lia).
  rewrite Z.add_0_r.
  replace (days_from_civil y m 1 + d - 1) with (days_from_civil y m (1 + (d - 1)))
    by (rewrite days_from_civil_linear; lia).
  replace (1 + (d - 1)) with d by lia. exact H.
Qed.

Lemma getDate_bounds (tv : Z) : 1 <= getDate tv <= 31.
Proof.
  unfold getDate, civil_from_days. cbn [snd].
  set (z' := Day tv + 719468).
  set (era := z' / 146097).
  set (doe := z' - era * 146097).
  assert (Hdoe : 0 <= doe < 146097)
    by (subst doe era; Z.div_mod_to_equations; lia).
  pose proof (year_of_era_bounds doe Hdoe) as Hb. cbv zeta in Hb.
  set (yoe := (doe - doe / 1460 + doe / 36524 - doe / 146096) / 365) in *.
  set (doy := doe - (365 * yoe + yoe / 4 - yoe / 100)) in *.
  destruct Hb as [_ Hdoy]. clearbody doy. Z.div_mod_to_equations. lia.
Qed.

(** The first of January of the year of a day is at most 365 days back. *)
Lemma year_start_bounds (z : Z) :
  let y := fst (fst (civil_from_days z)) in
  0 <= z - days_from_civil y 1 1 <= 365.
Proof.
  unfold civil_from_days. cbn [fst].
  set (z' := z + 719468).
  set (era := z' / 146097).
  set (doe := z' - era * 146097).
  assert (Hdoe : 0 <= doe < 146097)
    by (subst doe era; Z.div_mod_to_equations; lia).
  pose proof (year_of_era_bounds doe Hdoe) as Hb. cbv zeta in Hb.
  set (yoe := (doe - doe / 1460 + doe / 36524 - doe / 146096) / 365) in *.
  set (doy := doe - (365 * yoe + yoe / 4 - yoe / 100)) in *.
  destruct Hb as [Hyoe Hdoy].
  set (mp := (5 * doy + 2) / 153).
  assert (Hmp : 0 <= mp <= 11) by (subst mp; Z.div_mod_to_equations; lia).
  assert (Hz : z = era * 146097 + doy + (365 * yoe + yoe / 4 - yoe / 100) - 719468)
    by (subst doy doe z'; lia).
  unfold days_from_civil.
  change (1 <=? 2) with true. change (2 <? 1) with false. cbv iota.
  change ((153 * (1 + 9) + 2) / 5 + 1 - 1) with 306.
  destruct (mp <? 10) eqn:E10.
  - apply Z.ltb_lt in E10.
    replace (mp + 3 <=? 2) with false by (symmetry; apply Z.leb_gt; lia).
    assert (Hdoy' : doy <= 305) by (subst mp; Z.div_mod_to_equations; lia).
    rewrite Hz. clearbody doy yoe era. clear - Hyoe Hdoy Hdoy'.
    Z.div_mod_to_equations. lia.
  - apply Z.ltb_ge in E10.
    replace (mp - 9 <=? 2) with true by (symmetry; apply Z.leb_le; lia).
    assert (Hdoy' : 306 <= doy) by (subst mp; Z.div_mod_to_equations; lia).
    replace (yoe + era * 400 + 1 - 1) with (yoe + era * 400) by lia.
    rewrite Hz. clearbody doy yoe era. clear - Hyoe Hdoy Hdoy'.
    Z.div_mod_to_equations. lia.
Qed.

(** A valid date never prints as an Invalid Date does. *)
Lemma toDateString_valid (tv : Z) :
  String.eqb "Invalid Date" (toDateStringOf tv) = false.
Proof.
  unfold toDateStringOf.
  assert (H : 0 <= getDay tv < 7) by (unfold getDay; apply Z.mod_pos_bound; reflexivity).
  assert (C : getDay tv = 0 \/ getDay tv = 1 \/ getDay tv = 2 \/ getDay tv = 3 \/
              getDay tv = 4 \/ getDay tv = 5 \/ getDay tv = 6) by lia.
  destruct C as [-> | [-> | [-> | [-> | [-> | [-> | ->]]]]]]; reflexivity.
Qed.

Lemma MakeDay_shift (y m d k : Z) : MakeDay y m (d + k) = MakeDay y m d + k.
Proof. unfold MakeDay. lia. Qed.

Lemma msPerDay_pos : 0 < msPerDay.
Proof. reflexivity. Qed.

Lemma Day_decompose (tv : Z) : tv = Day tv * msPerDay + TimeWithinDay tv.
Proof.
  unfold Day, TimeWithinDay. pose proof (Z.div_mod tv msPerDay). 
  pose proof msPerDay_pos. lia.
Qed.

(** [new Date(d.getFullYear(), d.getMonth(), d.getDate())] is midnight of
    the day of [d]. *)
Lemma fullYear_plain (year : Z) : year < 0 \/ 99 < year -> fullYear year = year.
Proof.
  intros H. unfold fullYear.
  destruct (Z.leb_spec 0 year), (Z.leb_spec year 99); cbn [andb]; lia.
Qed.

Lemma ofYMD_fields (tv : Z) :
  getFullYear tv < 0 \/ 99 < getFullYear tv ->
  ofYMD (getFullYear tv) (getMonth tv) (getDate tv) = Day tv * msPerDay.
Proof. intros H. unfold ofYMD. now rewrite (fullYear_plain _ H), MakeDay_fields. Qed.

(** [d.setDate(d.getDate() + k)] moves [d] by [k] whole days. *)
Lemma setDate_shift (tv k : Z) :
  setDate tv (getDate tv + k) = tv + k * msPerDay.
Proof.
  unfold setDate. rewrite MakeDay_shift, MakeDay_fields.
  pose proof (Day_decompose tv). lia.
Qed.

Lemma Day_shift (tv k : Z) : Day (tv + k * msPerDay) = Day tv + k.
Proof. unfold Day. apply Z.div_add. discriminate. Qed.

Lemma Day_startOfDay (d : Z) : Day (d * msPerDay) = d.
Proof. unfold Day. apply Z.div_mul. discriminate. Qed.

End JsDateFacts.

(** ** Sorting *)

Module JsArrayFacts.
Import JsArray.

Section Generic.
Context {A : Type}.
Variable cmp : A -> A -> Z.

Lemma insert_perm (x : A) (l : list A) : Permutation (x :: l) (insert cmp x l).
Proof.
  induction l as [| h t IH]; simpl; [reflexivity |].
  destruct (cmp x h <=? 0); [reflexivity |].
  rewrite perm_swap. now apply perm_skip.
Qed.

Lemma sort_perm (l : list A) : Permutation l (sort cmp l).
Proof.
  induction l as [| h t IH]; simpl; [constructor |].
  rewrite <- insert_perm. now apply perm_skip.
Qed.

Lemma sort_length (l : list A) : length (sort cmp l) = length l.
Proof. symmetry. apply Permutation_length, sort_perm. Qed.

Section Keyed.
Variable key : A -> Z.
Hypothesis cmp_key : forall a b, cmp a b = key a - key b.

Definition key_le (a b : A) : Prop := key a <= key b.

Lemma insert_sorted (x : A) (l : list A) :
  Sorted key_le l -> Sorted key_le (insert cmp x l).
Proof.
  induction 1 as [| h t Ht IH Hhd]; simpl.
  - repeat constructor.
  - rewrite cmp_key. destruct (key x - key h <=? 0) eqn:E.
    + apply Z.leb_le in E. repeat constructor; trivial. unfold key_le. lia.
    + apply Z.leb_gt in E. constructor; [exact IH |].
      destruct Hhd as [| b t' Hb]; simpl.
      * constructor. unfold key_le. lia.
      * rewrite cmp_key. destruct (key x - key b <=? 0);
          constructor; unfold key_le in *; lia.
Qed.

Lemma sort_sorted (l : list A) : Sorted key_le (sort cmp l).
Proof.
  induction l as [| h t IH]; simpl; [constructor | now apply insert_sorted].
Qed.

(** Sorting is stable, so a list already in order is left as it is. *)
Lemma sort_of_sorted (l : list A) : Sorted key_le l -> sort cmp l = l.
Proof.
  induction 1 as [| h t Ht IH Hhd]; simpl; [reflexivity |].
  rewrite IH. destruct Hhd as [| b t' Hb]; simpl; [reflexivity |].
  rewrite cmp_key. unfold key_le in Hb.
  now replace (key h - key b <=? 0) with true by (symmetry; apply Z.leb_le; lia).
Qed.
End Keyed.
End Generic.

(** A comparator that is the image of another sorts the image list alike. *)
Lemma sort_map {A B : Type} (f : A -> B) (cmpA : A -> A -> Z) (cmpB : B -> B -> Z) :
  (forall a b, cmpB (f a) (f b) = cmpA a b) ->
  forall l, sort cmpB (map f l) = map f (sort cmpA l).
Proof.
  intros H l. induction l as [| h t IH]; simpl; [reflexivity |].
  rewrite IH. generalize (sort cmpA t) as s.
  induction s as [| b s IHs]; simpl; [reflexivity |].
  rewrite H. destruct (cmpA h b <=? 0); simpl; [reflexivity | now rewrite IHs].
Qed.

Lemma numeric_key (a b : Z) : numeric a b = (fun x => x) a - (fun x => x) b.
Proof. reflexivity. Qed.

Lemma sort_numeric_sorted (l : list Z) : Sorted Z.le (sort numeric l).
Proof. exact (sort_sorted numeric (fun x => x) numeric_key l). Qed.

Lemma sort_numeric_of_sorted (l : list Z) : Sorted Z.le l -> sort numeric l = l.
Proof. exact (sort_of_sorted numeric (fun x => x) numeric_key l). Qed.

Lemma insert_numeric_comm (x y : Z) (l : list Z) :
  insert numeric x (insert numeric y l) = insert numeric y (insert numeric x l).
Proof.
  induction l as [| h t IH]; simpl; unfold numeric.
  - destruct (x - y <=? 0) eqn:E1, (y - x <=? 0) eqn:E2; trivial.
    + apply Z.leb_le in E1, E2. now replace y with x by lia.
    + apply Z.leb_gt in E1, E2. lia.
  - destruct (y - h <=? 0) eqn:Ey, (x - h <=? 0) eqn:Ex; simpl; unfold numeric;
      rewrite ?Ey, ?Ex.
    + destruct (x - y <=? 0) eqn:E1, (y - x <=? 0) eqn:E2; trivial.
      * apply Z.leb_le in E1, E2. now replace y with x by lia.
      * apply Z.leb_gt in E1, E2. lia.
    + replace (x - y <=? 0) with false; [reflexivity |].
      symmetry. apply Z.leb_gt. apply Z.leb_le in Ey. apply Z.leb_gt in Ex. lia.
    + replace (y - x <=? 0) with false; [reflexivity |].
      symmetry. apply Z.leb_gt. apply Z.leb_le in Ex. apply Z.leb_gt in Ey. lia.
    + f_equal. exact IH.
Qed.

(** The numeric sort depends on the contents of the array only. *)
Lemma sort_numeric_perm (l l' : list Z) :
  Permutation l l' -> sort numeric l = sort numeric l'.
Proof.
  induction 1 as [| x l l' _ IH | x y l | l l' l'' _ IH1 _ IH2]; simpl.
  - reflexivity.
  - now rewrite IH.
  - apply insert_numeric_comm.
  - now rewrite IH1.
Qed.

(** The ascending arrangement of an array is what [sort] returns. *)
Lemma sort_numeric_unique (l sorted : list Z) :
  Permutation l sorted -> Sorted Z.le sorted -> sort numeric l = sorted.
Proof.
  intros HP HS. rewrite (sort_numeric_perm _ _ HP). now apply sort_numeric_of_sorted.
Qed.

End JsArrayFacts.

(** ** Median, pattern and trend *)

Module ConsistencyFacts.
Import Types ConsistencyData.

Lemma floor_quarter (n : Z) : JsMath.floor (inject_Z n * (25 # 100)) = n / 4.
Proof.
  unfold JsMath.floor, Qfloor, Qmult, inject_Z. cbn [Qnum Qden].
  change (Z.pos (1 * 100)) with 100. Z.div_mod_to_equations. lia.
Qed.

Lemma floor_three_quarters (n : Z) : JsMath.floor (inject_Z n * (75 # 100)) = 3 * n / 4.
Proof.
  unfold JsMath.floor, Qfloor, Qmult, inject_Z. cbn [Qnum Qden].
  change (Z.pos (1 * 100)) with 100. Z.div_mod_to_equations. lia.
Qed.

(** The pattern as a function of the interquartile range. *)
Definition patternOfIqr (iqr : Z) : ConsistencyPattern :=
  if iqr <=? 2 then Stable else if iqr <=? 7 then Variable_ else Irregular.

Lemma getConsistencyPattern_sorted (restDays sorted : list Z) :
  (2 <= length restDays)%nat ->
  Permutation restDays sorted -> Sorted Z.le sorted ->
  let n := Z.of_nat (length restDays) in
  getConsistencyPattern restDays =
  patternOfIqr (nth (Z.to_nat (3 * n / 4)) sorted 0 - nth (Z.to_nat (n / 4)) sorted 0).
Proof.
  intros Hlen HP HS n. unfold getConsistencyPattern.
  replace (length restDays <? 2)%nat with false
    by (symmetry; apply Nat.ltb_ge; exact Hlen).
  rewrite (JsArrayFacts.sort_numeric_unique _ _ HP HS).
  rewrite floor_quarter, floor_three_quarters.
  rewrite <- (Permutation_length HP). reflexivity.
Qed.

Lemma trend_split_lengths (n : nat) :
  (4 <= n)%nat -> (2 <= n / 2)%nat /\ (2 <= n - n / 2)%nat /\ (n / 2 <= n)%nat.
Proof.
  intros H. pose proof (Nat.div_mod_eq n 2) as E.
  pose proof (Nat.mod_upper_bound n 2 ltac:(discriminate)). lia.
Qed.

(** The change of the trend as the code computes it, in Numbers: the
    difference of the medians is divided by the past median, the quotient
    is rounded to a Number, multiplied by 100, rounded to a Number again,
    and only then rounded to an integer. *)
Definition changeOf (past recent : Q) : JsNumber.Number :=
  if negb (Qle_bool past 0)
  then JsMath.roundNumber
         (((JsNumber.ofQ past - JsNumber.ofQ recent) / JsNumber.ofQ past) * 100)%float
  else 0%float.

Definition directionOf (change : JsNumber.Number) : TrendDirection :=
  if (10 <? change)%float then improving
  else if (change <? -10)%float then declining
  else stable.

(** With four gaps or more, [calculateTrend] takes its last branch. *)
Lemma calculateTrend_enough (restDaysData : list RestDaysData) :
  (4 <= length restDaysData)%nat ->
  let sorted := JsArray.sort (fun a b => a.(rd_date) - b.(rd_date)) restDaysData in
  let midPoint := (length sorted / 2)%nat in
  let recent := calculateMedian (map days (JsArray.slice_from sorted midPoint)) in
  let past := calculateMedian (map days (JsArray.slice_to sorted midPoint)) in
  calculateTrend restDaysData FourMonths =
  Some {| direction := directionOf (changeOf past recent);
          percentageChange := changeOf past recent;
          recentMedian := recent;
          pastMedian := past |}.
Proof.
  intros Hlen sorted midPoint recent past.
  unfold calculateTrend. cbn [isFourMonths negb orb].
  replace (length restDaysData <? 4)%nat with false
    by (symmetry; apply Nat.ltb_ge; exact Hlen).
  fold sorted. fold midPoint.
  assert (Hs : length sorted = length restDaysData)
    by apply JsArrayFacts.sort_length.
  destruct (trend_split_lengths (length sorted)) as (H1 & H2 & H3); [lia |].
  unfold JsArray.slice_from at 1, JsArray.slice_to at 1.
  rewrite length_skipn, length_firstn. fold midPoint in H1, H2, H3.
  replace (length sorted - midPoint <? 2)%nat with false
    by (symmetry; apply Nat.ltb_ge; lia).
  replace (Nat.min midPoint (length sorted) <? 2)%nat with false
    by (symmetry; apply Nat.ltb_ge; lia).
  reflexivity.
Qed.



(** C1.  A gap list with fewer than two entries is Stable.  With two or
    more, take the ascending arrangement [sorted] of the gaps (the one that
    [sort] computes), q1 at index floor(n/4) and q3 at index floor(3n/4),
    both inside the array: the pattern is Stable when q3 - q1 <= 2,
    Variable when 2 < q3 - q1 <= 7 and Irregular beyond.  The gaps 3, 6, 1
    sort to 1, 3, 6, have q1 = 1, q3 = 6, are Variable and have median 3. *)
Theorem consistency_pattern_by_iqr :
  (forall restDays : list Z,
      (length restDays < 2)%nat -> getConsistencyPattern restDays = Stable) /\
  (forall restDays sorted : list Z,
      (2 <= length restDays)%nat ->
      Permutation restDays sorted -> Sorted Z.le sorted ->
      let n := Z.of_nat (length restDays) in
      let q1Index := Z.to_nat (n / 4) in
      let q3Index := Z.to_nat (3 * n / 4) in
      let q1 := nth q1Index sorted 0 in
      let q3 := nth q3Index sorted 0 in
      let iqr := q3 - q1 in
      (q1Index < length sorted)%nat /\ (q3Index < length sorted)%nat /\
      (iqr <= 2 -> getConsistencyPattern restDays = Stable) /\
      (2 < iqr <= 7 -> getConsistencyPattern restDays = Variable_) /\
      (7 < iqr -> getConsistencyPattern restDays = Irregular)) /\
  (forall restDays : list Z,
      Permutation restDays (JsArray.sort JsArray.numeric restDays) /\
      Sorted Z.le (JsArray.sort JsArray.numeric restDays)) /\
  (JsArray.sort JsArray.numeric [3; 6; 1] = [1; 3; 6] /\
   Z.to_nat (3 / 4) = 0%nat /\ Z.to_nat (3 * 3 / 4) = 2%nat /\
   nth 0 [1; 3; 6] 0 = 1 /\ nth 2 [1; 3; 6] 0 = 6 /\
   getConsistencyPattern [3; 6; 1] = Variable_ /\
   calculateMedian [3; 6; 1] == 3).
Proof.
  split; [| split; [| split]].
  - intros restDays H. unfold getConsistencyPattern.
    now replace (length restDays <? 2)%nat with true
      by (symmetry; apply Nat.ltb_lt; exact H).
  - intros restDays sorted Hlen HP HS n q1Index q3Index q1 q3 iqr.
    pose proof (getConsistencyPattern_sorted restDays sorted Hlen HP HS) as E.
    cbv zeta in E. fold n in E. fold q1Index q3Index in E. fold q1 q3 iqr in E.
    rewrite E. unfold patternOfIqr.
    assert (Hn : Z.of_nat (length sorted) = n)
      by (unfold n; now rewrite (Permutation_length HP)).
    repeat split.
    + unfold q1Index. apply Nat2Z.inj_lt. rewrite Hn, Z2Nat.id;
        Z.div_mod_to_equations; lia.
    + unfold q3Index. apply Nat2Z.inj_lt. rewrite Hn, Z2Nat.id;
        Z.div_mod_to_equations; lia.
    + intros H. now replace (iqr <=? 2) with true by (symmetry; apply Z.leb_le; lia).
    + intros H. replace (iqr <=? 2) with false by (symmetry; apply Z.leb_gt; lia).
      now replace (iqr <=? 7) with true by (symmetry; apply Z.leb_le; lia).
    + intros H. replace (iqr <=? 2) with false by (symmetry; apply Z.leb_gt; lia).
      now replace (iqr <=? 7) with false by (symmetry; apply Z.leb_gt; lia).
  - intros restDays. split.
    + apply JsArrayFacts.sort_perm.
    + apply JsArrayFacts.sort_numeric_sorted.
  - repeat split; reflexivity.
Qed.

Lemma consistency_pattern_by_iqr_witness :
  getConsistencyPattern [1; 9; 2; 5] = Variable_.
Proof.
  refine (proj1 (proj2 (proj2 (proj2
    (proj1 (proj2 consistency_pattern_by_iqr) [1; 9; 2; 5] [1; 2; 5; 9] _ _ _)))) _).
  - simpl. lia.
  - apply perm_skip. exact (Permutation_cons_append [2; 5] 9).
  - repeat constructor; lia.
  - simpl. lia.
Defined.

(** Gaps given as (day number of the later workout, gap in days). *)
Definition gapsOn (dates : list (Z * Z)) : list RestDaysData :=
  map (fun p => {| rd_date := fst p * JsDate.msPerDay; days := snd p |}) dates.


(** Four gaps of one day: Stable, and a stable trend. *)
Example steady_training :
  getConsistencyPattern [1; 1; 1; 1] = Stable /\
  calculateTrend (gapsOn [(2, 1); (3, 1); (4, 1); (5, 1)]) FourMonths =
  Some {| direction := stable; percentageChange := 0%float;
          recentMedian := 2 # 2; pastMedian := 2 # 2 |}.
Proof. split; reflexivity. Qed.

(** With a past median of zero the quotient is not formed: the change is 0
    and the direction [stable], however large the recent gaps are. *)
Lemma calculateTrend_zero_past_median :
  calculateTrend (gapsOn [(1, 0); (1, 0); (30, 29); (60, 30)]) FourMonths =
  Some {| direction := stable; percentageChange := 0%float;
          recentMedian := 59 # 2; pastMedian := 0 # 2 |}.
Proof. reflexivity. Qed.



(** C3.  Four gaps or more split at floor(n/2) into a past and a recent
    half of two entries or more each (exactly two and two for four gaps), so
    the trend of the four-month view exists and its direction is improving,
    declining or stable, never [insufficient]. *)
Theorem trend_halves_are_sufficient (restDaysData : list RestDaysData) :
  (4 <= length restDaysData)%nat ->
  let sorted := JsArray.sort (fun a b => a.(rd_date) - b.(rd_date)) restDaysData in
  let midPoint := (length sorted / 2)%nat in
  let pastData := JsArray.slice_to sorted midPoint in
  let recentData := JsArray.slice_from sorted midPoint in
  (2 <= length pastData)%nat /\ (2 <= length recentData)%nat /\
  (length restDaysData = 4%nat ->
   length pastData = 2%nat /\ length recentData = 2%nat) /\
  exists t, calculateTrend restDaysData FourMonths = Some t /\
            direction t <> insufficient /\
            (direction t = improving \/ direction t = declining \/ direction t = stable).
Proof.
  intros Hlen sorted midPoint pastData recentData.
  assert (Hs : length sorted = length restDaysData)
    by apply JsArrayFacts.sort_length.
  destruct (trend_split_lengths (length sorted)) as (H1 & H2 & H3); [lia |].
  fold midPoint in H1, H2, H3.
  assert (Hp : length pastData = midPoint)
    by (unfold pastData, JsArray.slice_to; rewrite length_firstn; lia).
  assert (Hr : length recentData = (length sorted - midPoint)%nat)
    by (unfold recentData, JsArray.slice_from; now rewrite length_skipn).
  split; [lia |]. split; [lia |]. split.
  - intros H4. rewrite Hp, Hr. unfold midPoint. rewrite Hs, H4. split; reflexivity.
  - rewrite (calculateTrend_enough restDaysData Hlen). eexists. split; [reflexivity |].
    cbv beta iota delta [direction]. unfold directionOf.
    match goal with |- context [if (10 <? ?c)%float then _ else _] =>
      destruct (10 <? c)%float; [| destruct (c <? -10)%float] end;
      (split; [discriminate | auto]).
Qed.

Lemma trend_halves_are_sufficient_witness :
  exists t, calculateTrend (gapsOn [(2, 1); (3, 1); (4, 1); (5, 1)]) FourMonths = Some t /\
            direction t <> insufficient.
Proof.
  destruct (trend_halves_are_sufficient (gapsOn [(2, 1); (3, 1); (4, 1); (5, 1)]))
    as (_ & _ & _ & t & Ht & Hd & _).
  - simpl. lia.
  - exists t. split; [exact Ht | exact Hd].
Defined.

End ConsistencyFacts.

(** ** Rest days *)

Module RestDaysFacts.
Import Types ConsistencyData.

Lemma Day_monotone (a b : Z) : a <= b -> JsDate.Day a <= JsDate.Day b.
Proof. intros H. unfold JsDate.Day. apply Z.div_le_mono; [reflexivity | exact H]. Qed.

(** [Math.ceil] of a quotient of integers. *)
Lemma ceil_quotient (v : Z) :
  JsMath.ceil (inject_Z v / inject_Z (1000 * 60 * 60 * 24)) = - (- v / JsDate.msPerDay).
Proof.
  unfold JsMath.ceil, Qceiling, Qfloor, Qopp, Qdiv, Qmult, Qinv, inject_Z.
  cbn [Qnum Qden]. unfold JsDate.msPerDay.
  change (Z.pos (1 * 86400000)) with (1000 * 60 * 60 * 24).
  now rewrite Z.mul_1_r.
Qed.

Lemma ceil_whole_days (k : Z) :
  JsMath.ceil (inject_Z (k * JsDate.msPerDay) / inject_Z (1000 * 60 * 60 * 24)) = k.
Proof.
  rewrite ceil_quotient. unfold JsDate.msPerDay. Z.div_mod_to_equations. lia.
Qed.

Section Zone.
Variable LocalTZA : Z -> bool -> Z.

(** The local calendar day of a time value, as a day number, and the
    offset of the zone at the local midnight that opens that day. *)
Definition localDay (tv : Z) : Z := JsDate.Day (JsLocalDate.LocalTime LocalTZA tv).
Definition offsetAtMidnight (tv : Z) : Z :=
  LocalTZA (localDay tv * JsDate.msPerDay) false.

(** A time value whose local year is not one of the years 0 to 99, which
    [new Date(year, month, date)] reads as 1900 to 1999. *)
Definition plainYear (tv : Z) : Prop :=
  JsLocalDate.getFullYear LocalTZA tv < 0 \/ 99 < JsLocalDate.getFullYear LocalTZA tv.

(** [new Date(d.getFullYear(), d.getMonth(), d.getDate())] is the local
    midnight of the day of [d]. *)
Lemma local_midnight (tv : Z) :
  plainYear tv ->
  JsLocalDate.ofYMD LocalTZA (JsLocalDate.getFullYear LocalTZA tv)
                    (JsLocalDate.getMonth LocalTZA tv) (JsLocalDate.getDate LocalTZA tv)
  = localDay tv * JsDate.msPerDay - offsetAtMidnight tv.
Proof.
  intros H.
  unfold JsLocalDate.ofYMD, JsLocalDate.getFullYear, JsLocalDate.getMonth,
    JsLocalDate.getDate, JsLocalDate.UTC.
  rewrite JsDateFacts.ofYMD_fields by exact H. reflexivity.
Qed.

(** What the code makes of two timestamps, read on the calendar: [apart]
    is the number of local calendar days from the one to the other and
    [shift] the change of the zone offset between their two midnights. *)
Definition gapOf (previous current gap : Z) : Prop :=
  let apart := localDay current - localDay previous in
  let shift := offsetAtMidnight current - offsetAtMidnight previous in
  0 <= gap /\
  (plainYear previous -> plainYear current ->
   (apart = 0 -> gap = 0) /\
   (shift = 0 -> gap = Z.abs apart) /\
   (Z.abs shift < JsDate.msPerDay -> apart <> 0 ->
    1 <= gap /\
    Z.abs apart <= gap <= Z.abs apart + 1 /\
    (gap = Z.abs apart + 1 <-> apart * shift < 0))).

Lemma restDaysBetween_gap (previous current : Z) :
  rd_date (restDaysBetween LocalTZA previous current) = current /\
  gapOf previous current (days (restDaysBetween LocalTZA previous current)).
Proof.
  split; [reflexivity |].
  unfold restDaysBetween, gapOf. cbn [days]. rewrite ceil_quotient.
  split; [unfold JsDate.msPerDay; Z.div_mod_to_equations; lia |].
  intros Hp Hc. rewrite !local_midnight by assumption.
  set (apart := localDay current - localDay previous).
  set (shift := offsetAtMidnight current - offsetAtMidnight previous).
  replace (localDay current * JsDate.msPerDay - offsetAtMidnight current
           - (localDay previous * JsDate.msPerDay - offsetAtMidnight previous))
    with (apart * JsDate.msPerDay - shift) by (unfold apart, shift; ring).
  assert (Hsame : apart = 0 -> shift = 0).
  { unfold apart, shift, offsetAtMidnight. intros E.
    replace (localDay current) with (localDay previous) by lia. lia. }
  clearbody apart shift. unfold JsDate.msPerDay.
  split; [intros E; rewrite (Hsame E), E; reflexivity |].
  split; [intros ->; Z.div_mod_to_equations; lia |].
  intros Hshift Hapart.
  split; [Z.div_mod_to_equations; lia |].
  split; [Z.div_mod_to_equations; lia |].
  split; intros E; Z.div_mod_to_equations; nia.
Qed.

(** The gaps of a list of timestamps, pair by consecutive pair. *)
Definition consecutive (times : list Z) : list (Z * Z) := combine times (tl times).

Lemma restDaysLoop_pairs (first : Z) (later : list Z) :
  Forall2 (fun pair g => rd_date g = snd pair /\ gapOf (fst pair) (snd pair) (days g))
          (consecutive (first :: later)) (restDaysLoop LocalTZA first later).
Proof.
  unfold consecutive. cbn [tl].
  revert first. induction later as [| current rest IH]; intros first;
    cbn [restDaysLoop combine].
  - constructor.
  - constructor; [apply restDaysBetween_gap | apply IH].
Qed.

Lemma restDaysLoop_dates (first : Z) (later : list Z) :
  map rd_date (restDaysLoop LocalTZA first later) = later /\
  Forall (fun g => 0 <= days g) (restDaysLoop LocalTZA first later).
Proof.
  revert first. induction later as [| current rest IH]; intros first;
    cbn [restDaysLoop map].
  - split; constructor.
  - destruct (IH current) as [E F]. split; [now rewrite E |].
    constructor; [| exact F]. apply restDaysBetween_gap.
Qed.

Lemma restDaysLoop_length (first : Z) (later : list Z) :
  length (restDaysLoop LocalTZA first later) = length later.
Proof. revert first. induction later; intros; simpl; congruence. Qed.
End Zone.

Lemma getTimes_valid (times : list Z) : getTimes (map Some times) = Ret times.
Proof. induction times as [| t r IH]; simpl; [reflexivity | now rewrite IH]. Qed.

Lemma valid_dates (dates : list JsDate.time) :
  Forall (fun d => d <> None) dates -> exists times, dates = map Some times.
Proof.
  induction 1 as [| d r Hd _ [ts IH]].
  - now exists [].
  - destruct d as [tv |]; [| congruence]. exists (tv :: ts). simpl. now rewrite IH.
Qed.

Lemma sort_valid_dates (times : list Z) :
  JsArray.sort JsDate.compareTime (map Some times) =
  map Some (JsArray.sort JsArray.numeric times).
Proof. apply JsArrayFacts.sort_map. reflexivity. Qed.

Section WithParser.
Variable Date_parse : string -> JsDate.time.
Variable LocalTZA : Z -> bool -> Z.

Lemma sessionDates_length now workouts exerciseId :
  length (sessionDates Date_parse now workouts exerciseId) =
  length (filter (hasExercise exerciseId) workouts).
Proof.
  unfold sessionDates. now rewrite JsArrayFacts.sort_length, length_map.
Qed.

(** What [calculateRestDays] returns on a log whose qualifying workouts all
    have a valid date. *)
Lemma calculateRestDays_valid now workouts exerciseId :
  let qualifying := filter (hasExercise exerciseId) workouts in
  Forall (fun w => safeParseDate Date_parse now w.(date) <> None) qualifying ->
  exists times gaps,
    Permutation (map (fun w => safeParseDate Date_parse now w.(date)) qualifying)
                (map Some times) /\
    Sorted Z.le times /\
    calculateRestDays Date_parse LocalTZA now workouts exerciseId = Ret gaps /\
    length gaps = pred (length qualifying) /\
    map rd_date gaps = tl times /\
    Forall2 (fun pair g => gapOf LocalTZA (fst pair) (snd pair) (days g))
            (consecutive times) gaps /\
    Forall (fun g => 0 <= days g) gaps.
Proof.
  intros qualifying Hvalid.
  destruct (valid_dates (map (fun w => safeParseDate Date_parse now w.(date)) qualifying))
    as [raw Hraw].
  { apply Forall_map. exact Hvalid. }
  set (times := JsArray.sort JsArray.numeric raw).
  assert (Hsess : sessionDates Date_parse now workouts exerciseId = map Some times).
  { unfold sessionDates. fold qualifying. rewrite Hraw. apply sort_valid_dates. }
  assert (Hlen : length times = length qualifying).
  { unfold times. rewrite JsArrayFacts.sort_length.
    rewrite <- (length_map Some raw), <- Hraw. apply length_map. }
  assert (HS : Sorted Z.le times) by apply JsArrayFacts.sort_numeric_sorted.
  assert (HP : Permutation
                 (map (fun w => safeParseDate Date_parse now w.(date)) qualifying)
                 (map Some times)).
  { rewrite Hraw. apply Permutation_map. apply JsArrayFacts.sort_perm. }
  unfold calculateRestDays. rewrite Hsess, length_map, getTimes_valid. cbn [bind].
  exists times.
  destruct times as [| first later].
  - exists []. simpl in *. rewrite <- Hlen. repeat split; trivial; constructor.
  - destruct later as [| second rest].
    + exists []. simpl in *. rewrite <- Hlen. repeat split; trivial; constructor.
    + replace (length (first :: second :: rest) <? 2)%nat with false by reflexivity.
      exists (restDaysLoop LocalTZA first (second :: rest)).
      destruct (restDaysLoop_dates LocalTZA first (second :: rest)) as (E2 & E3).
      repeat split; trivial.
      * rewrite restDaysLoop_length, <- Hlen. reflexivity.
      * eapply Forall2_impl; [| apply restDaysLoop_pairs].
        cbn beta. intros pair g [_ H]. exact H.
Qed.

(** Every workout that passes [filterWorkoutsByPeriod] has a valid date:
    a comparison with an Invalid Date is false. *)
Lemma filterWorkoutsByPeriod_valid now workouts period :
  Forall (fun w => safeParseDate Date_parse now w.(date) <> None)
         (filterWorkoutsByPeriod Date_parse LocalTZA now workouts period).
Proof.
  apply Forall_forall. intros w Hin.
  destruct period; unfold filterWorkoutsByPeriod in Hin;
    apply filter_In in Hin; destruct Hin as [_ Hin];
    destruct (safeParseDate Date_parse now (date w)); try discriminate;
    simpl in Hin; discriminate.
Qed.

Lemma Forall_filter_keep {A} (P : A -> Prop) (f : A -> bool) (l : list A) :
  Forall P l -> Forall P (filter f l).
Proof.
  intros H. apply Forall_forall. intros x Hin. apply filter_In in Hin.
  rewrite Forall_forall in H. now apply H.
Qed.

(** So the gap arithmetic of both hooks stays on numbers. *)
Lemma calculateRestDays_filtered now workouts period exerciseId :
  let filtered := filterWorkoutsByPeriod Date_parse LocalTZA now workouts period in
  exists gaps,
    calculateRestDays Date_parse LocalTZA now filtered exerciseId = Ret gaps /\
    length gaps = pred (length (filter (hasExercise exerciseId) filtered)) /\
    Forall (fun g => 0 <= days g) gaps.
Proof.
  intros filtered.
  destruct (calculateRestDays_valid now filtered exerciseId)
    as (times & gaps & _ & _ & E & L & _ & _ & F).
  - apply Forall_filter_keep, filterWorkoutsByPeriod_valid.
  - now exists gaps.
Qed.
End WithParser.

(** *** Medians are half-integers, which rounding to a tenth leaves alone *)

Lemma round_whole (n : Z) : JsMath.round (inject_Z n) = n.
Proof.
  unfold JsMath.round, Qfloor, Qplus, inject_Z. cbn [Qnum Qden].
  change (Z.pos (1 * 2)) with 2. Z.div_mod_to_equations. lia.
Qed.

Lemma roundToTenth_half (x : Q) (k : Z) : x == k # 2 -> roundToTenth x == x.
Proof.
  intros E. unfold roundToTenth, JsMath.round.
  rewrite (Qfloor_comp (x * 10 + (1 # 2)) (inject_Z (5 * k) + (1 # 2))).
  - fold (JsMath.round (inject_Z (5 * k))). rewrite round_whole, E.
    unfold Qeq, Qdiv, Qmult, Qinv, inject_Z. cbn [Qnum Qden]. lia.
  - rewrite E. unfold Qeq, Qplus, Qmult, inject_Z. cbn [Qnum Qden]. lia.
Qed.

Lemma calculateMedian_half (values : list Z) : exists k, calculateMedian values == k # 2.
Proof.
  unfold calculateMedian. destruct values as [| v vs]; [now exists 0 |].
  match goal with |- context [if ?c then _ else _] => destruct c end.
  - eexists. unfold Qeq, Qdiv, Qmult, Qinv, inject_Z. cbn [Qnum Qden].
    rewrite !Z.mul_1_r. reflexivity.
  - match goal with |- context [inject_Z ?a] => exists (2 * a) end.
    unfold Qeq, inject_Z. cbn [Qnum Qden]. lia.
Qed.

Lemma half_minus (x y : Q) (a b : Z) : x == a # 2 -> y == b # 2 -> x - y == (a - b) # 2.
Proof.
  intros Ex Ey. rewrite Ex, Ey.
  unfold Qeq, Qminus, Qplus, Qopp. cbn [Qnum Qden]. lia.
Qed.

End RestDaysFacts.

(** ** The classifier and the year comparison *)

Module ClassifierFacts.
Import Types ConsistencyData RestDaysFacts.

(** C5, as stated, fails: two qualifying workouts on one calendar day (at
    08:00 and at 18:00 on 5 January 2026) are two sessions, and the gap
    between them is a gap of 0 days. *)
Lemma calculateRestDays_same_day_gap :
  let morning := 1767571200000 + 8 * 3600000 in
  let evening := 1767571200000 + 18 * 3600000 in
  let workout tv :=
    {| date := DateObj (Some tv);
       sets := [{| exerciseId := "pushups"; reps := 12 |}] |} in
  let now := 1767571200000 + 20 * 3600000 in
  JsDate.toDateString (Some morning) = JsDate.toDateString (Some evening) /\
  calculateRestDays Host.Date_parse JsLocalDate.utc now
    (filterWorkoutsByPeriod Host.Date_parse JsLocalDate.utc now
       [workout morning; workout evening] FourMonths)
    "pushups"
  = Ret [{| rd_date := evening; days := 0 |}].
Proof. cbv zeta. split; vm_compute; reflexivity. Qed.

(** Central European time around 25 October 2026, when the clocks go back
    from 03:00 to 02:00 (at 01:00 UTC): two hours ahead of UTC before,
    one hour after. *)
Definition autumn2026 : Z -> bool -> Z :=
  JsLocalDate.oneChange (JsDate.ofYMDhms 2026 9 25 1 0 0) 7200000 3600000.

(** Workouts at noon on 25 and on 26 October 2026: the two local midnights
    are 25 hours apart there, and the gap between consecutive days is 2;
    in a zone without a change of clocks it is 1. *)
Example gap_over_the_long_day :
  map days (restDaysLoop autumn2026 (JsLocalDate.ofYMDhms autumn2026 2026 9 25 12 0 0)
                         [JsLocalDate.ofYMDhms autumn2026 2026 9 26 12 0 0]) = [2] /\
  map days (restDaysLoop JsLocalDate.utc (JsDate.ofYMDhms 2026 9 25 12 0 0)
                         [JsDate.ofYMDhms 2026 9 26 12 0 0]) = [1].
Proof. split; vm_compute; reflexivity. Qed.

Section WithParser.
Variable Date_parse : string -> JsDate.time.
Variable LocalTZA : Z -> bool -> Z.

(** C5, amended.  The rest intervals are computed from the qualifying
    workouts sorted by time, repeated days kept: one gap per consecutive
    pair of qualifying workouts, dated by the later workout and never
    negative.  The gap is the distance between the local midnights of the
    two workouts in days, rounded up; for workouts dated outside the years
    0 to 99 it is 0 when both fall on the same calendar day, the
    difference of the two calendar-day numbers when the zone has the same
    offset at both midnights, and, when the offsets differ by less than a
    day and the days are distinct, 1 or more and that difference or one
    more, one more exactly when the clocks were set back in between. *)
Theorem rest_days_between_consecutive_sessions now workouts exerciseId :
  let qualifying := filter (hasExercise exerciseId) workouts in
  Forall (fun w => safeParseDate Date_parse now w.(date) <> None) qualifying ->
  exists times gaps,
    Permutation (map (fun w => safeParseDate Date_parse now w.(date)) qualifying)
                (map Some times) /\
    Sorted Z.le times /\
    calculateRestDays Date_parse LocalTZA now workouts exerciseId = Ret gaps /\
    length gaps = pred (length qualifying) /\
    map rd_date gaps = tl times /\
    Forall2 (fun pair g =>
               let apart := localDay LocalTZA (snd pair) - localDay LocalTZA (fst pair) in
               let shift := offsetAtMidnight LocalTZA (snd pair)
                            - offsetAtMidnight LocalTZA (fst pair) in
               0 <= days g /\
               (plainYear LocalTZA (fst pair) -> plainYear LocalTZA (snd pair) ->
                (apart = 0 -> days g = 0) /\
                (shift = 0 -> days g = Z.abs apart) /\
                (Z.abs shift < JsDate.msPerDay -> apart <> 0 ->
                 1 <= days g /\
                 Z.abs apart <= days g <= Z.abs apart + 1 /\
                 (days g = Z.abs apart + 1 <-> apart * shift < 0))))
            (consecutive times) gaps.
Proof.
  intros qualifying Hvalid.
  destruct (calculateRestDays_valid Date_parse LocalTZA now workouts exerciseId Hvalid)
    as (times & gaps & HP & HS & E & L & Edates & Epairs & _).
  exists times, gaps. repeat split; trivial.
Qed.

Lemma useExerciseConsistencyData_few now workouts exerciseId period :
  exerciseId <> EmptyString ->
  let qualifying :=
    filter (hasExercise exerciseId)
           (filterWorkoutsByPeriod Date_parse LocalTZA now workouts period) in
  (length qualifying <= 1)%nat ->
  useExerciseConsistencyData Date_parse LocalTZA now workouts exerciseId period =
  Ret (Some {| medianRestDays := 0;
               minRestDays := 0;
               maxRestDays := 0;
               workoutCount := length qualifying;
               pattern := Stable;
               restDaysDistribution := [];
               restDaysData := [];
               trend := None |}).
Proof.
  intros Hid qualifying Hlen. unfold useExerciseConsistencyData.
  replace (String.eqb exerciseId EmptyString) with false
    by (symmetry; now apply String.eqb_neq).
  unfold calculateRestDays. rewrite sessionDates_length. fold qualifying.
  replace (length qualifying <? 2)%nat with true
    by (symmetry; apply Nat.ltb_lt; lia).
  reflexivity.
Qed.

End WithParser.


(** Workouts at noon on 23, 25 and 26 October 2026 in [autumn2026], stored
    newest first: gaps of 2 days, and of 2 days over the long day. *)
Lemma rest_days_between_consecutive_sessions_witness :
  let noon day :=
    {| date := DateObj (Some (JsLocalDate.ofYMDhms autumn2026 2026 9 day 12 0 0));
       sets := [{| exerciseId := "plank"; reps := 1 |}] |} in
  exists gaps,
    calculateRestDays Host.Date_parse autumn2026 0 [noon 26; noon 25; noon 23] "plank"
      = Ret gaps /\
    length gaps = 2%nat /\ map days gaps = [2; 2].
Proof.
  cbv zeta.
  destruct (rest_days_between_consecutive_sessions Host.Date_parse autumn2026 0
      [{| date := DateObj (Some (JsLocalDate.ofYMDhms autumn2026 2026 9 26 12 0 0));
          sets := [{| exerciseId := "plank"; reps := 1 |}] |};
       {| date := DateObj (Some (JsLocalDate.ofYMDhms autumn2026 2026 9 25 12 0 0));
          sets := [{| exerciseId := "plank"; reps := 1 |}] |};
       {| date := DateObj (Some (JsLocalDate.ofYMDhms autumn2026 2026 9 23 12 0 0));
          sets := [{| exerciseId := "plank"; reps := 1 |}] |}]
      "plank") as (times & gaps & _ & _ & E & L & _).
  - repeat constructor; discriminate.
  - exists gaps. split; [exact E |]. split; [exact L |].
    assert (E' := E). vm_compute in E'. injection E' as <-. reflexivity.
Defined.

End ClassifierFacts.

Module HookFacts.
Import Types ConsistencyData RestDaysFacts.

Section WithParser.
Variable Date_parse : string -> JsDate.time.
Variable LocalTZA : Z -> bool -> Z.

(** C4, on the code.  A date string that the host cannot parse becomes an
    Invalid Date: [safeParseDate] returns neither "now" nor any other
    time, no period window keeps the workout, and a log made of this one
    workout is summarised as having no workout at all.  Elsewhere in the
    engine the workout counts for no day of a training percentage, and a
    maximum taken from it is dated by the Invalid Date, not by "now". *)
Theorem malformed_date_is_dropped now (s : string) (sets : list WorkoutSet)
        exerciseId period :
  Date_parse s = None ->
  exerciseId <> EmptyString ->
  let workout := {| date := DateStr s; sets := sets |} in
  safeParseDate Date_parse now workout.(date) = None /\
  safeParseDate Date_parse now workout.(date) <> Some now /\
  (forall others,
      ~ In workout (filterWorkoutsByPeriod Date_parse LocalTZA now (workout :: others)
                                           period)) /\
  (exists summary,
      useExerciseConsistencyData Date_parse LocalTZA now [workout] exerciseId period
        = Ret (Some summary) /\
      workoutCount summary = 0%nat) /\
  (forall day, Stats.trainedOn Date_parse [workout] day = false) /\
  (forall position timeframe record,
      MaxRepUtils.calculateMaxReps Date_parse now [workout] exerciseId position timeframe
        = Some record ->
      MaxRepUtils.mr_date record = None).
Proof.
  intros Hparse Hid workout.
  assert (E : safeParseDate Date_parse now workout.(date) = None) by exact Hparse.
  assert (E' : newDate Date_parse workout.(date) = None) by exact Hparse.
  split; [exact E |]. split; [rewrite E; discriminate |].
  split; [| split; [| split]].
  - intros others Hin.
    pose proof (filterWorkoutsByPeriod_valid Date_parse LocalTZA now (workout :: others)
                                             period) as V.
    rewrite Forall_forall in V. exact (V workout Hin E).
  - assert (F : filterWorkoutsByPeriod Date_parse LocalTZA now [workout] period = []).
    { destruct period; unfold filterWorkoutsByPeriod; cbn [filter]; now rewrite E. }
    eexists. split.
    + apply ClassifierFacts.useExerciseConsistencyData_few; [exact Hid |].
      rewrite F. simpl. lia.
    + rewrite F. reflexivity.
  - intros day. unfold Stats.trainedOn. cbn [existsb]. rewrite E'.
    cbn [JsDate.toDateString]. now rewrite JsDateFacts.toDateString_valid.
  - intros position timeframe record.
    unfold MaxRepUtils.calculateMaxReps. cbn [fold_left]. unfold MaxRepUtils.visit.
    rewrite E'. cbn [JsDate.lt].
    destruct (MaxRepUtils.setAtPosition exerciseId position workout) as [[set p] |];
      [| discriminate].
    intros [= <-]. reflexivity.
Qed.
End WithParser.

Lemma malformed_date_is_dropped_witness :
  exists summary,
    useExerciseConsistencyData Host.Date_parse JsLocalDate.utc 1767571200000
      [{| date := DateStr "not a date";
          sets := [{| exerciseId := "squat"; reps := 10 |}] |}]
      "squat" FourMonths = Ret (Some summary) /\
    workoutCount summary = 0%nat.
Proof.
  refine (proj1 (proj2 (proj2 (proj2
    (malformed_date_is_dropped Host.Date_parse JsLocalDate.utc 1767571200000 "not a date"
       [{| exerciseId := "squat"; reps := 10 |}] "squat" FourMonths _ _))))).
  - reflexivity.
  - discriminate.
Defined.

(** A squat workout stored with the time value [tv]. *)
Definition squatsAt (tv : Z) : Workout :=
  {| date := DateObj (Some tv); sets := [{| exerciseId := "squat"; reps := 10 |}] |}.

(** The workouts of a log that fall in the calendar year [y], as the
    year comparison of Stats.tsx selects them:
    [new Date(workout.date).getFullYear() === y]. *)
Definition ofYear (y : Z) (log : list Workout) : list Workout :=
  filter (fun w => match newDate Host.Date_parse w.(date) with
                   | Some tv => JsDate.getFullYear tv =? y
                   | None => false
                   end) log.

(** The second sentence of C7 holds on the code: five squat workouts in
    2025 and none in 2026, read on 5 January 2026, give -5 and false. *)
Example year_comparison_five_last_year :
  let log := map (fun month => squatsAt (JsDate.ofYMD 2025 month 3)) [1; 3; 4; 7; 10] in
  exists result,
    useExerciseYearComparison Host.Date_parse JsLocalDate.utc
                              (JsDate.ofYMDhms 2026 0 5 12 0 0) log "squat"
      = Ret (Some result) /\
    workoutChange result = -5 /\ isImproved result = false.
Proof. cbv zeta. eexists. split; [vm_compute; reflexivity |]. split; reflexivity. Qed.

(** C7, on the code.  Read at noon on 5 January 2026, a log with squats
    on 3 and 10 March 2025 and on 1 and 4 March 2027 (records imported
    with their dates) has no workout in 2026 and two in 2025.  The hook
    counts the two workouts of 2027 for its current year 2026 and takes
    their gap of 3 days as the median of 2026: [workoutChange] is 0, not
    -2, [restDaysChange] is 7 - 3 = 4, and [isImproved] is true.  And a
    workout logged on 31 December 2025 at 23:59:59.500 is in the year 2025
    and in neither window of the hook. *)
Theorem year_comparison_counts_later_years :
  let now := JsDate.ofYMDhms 2026 0 5 12 0 0 in
  let log := [squatsAt (JsDate.ofYMDhms 2025 2 3 12 0 0);
              squatsAt (JsDate.ofYMDhms 2025 2 10 12 0 0);
              squatsAt (JsDate.ofYMDhms 2027 2 1 12 0 0);
              squatsAt (JsDate.ofYMDhms 2027 2 4 12 0 0)] in
  let lastSecond := squatsAt (JsDate.ofYMDhms 2025 11 31 23 59 59 + 500) in
  (length (ofYear 2026 log) = 0%nat /\ length (ofYear 2025 log) = 2%nat /\
   exists result,
     useExerciseYearComparison Host.Date_parse JsLocalDate.utc now log "squat"
       = Ret (Some result) /\
     year (currentYear result) = 2026 /\
     ys_workoutCount (currentYear result) = 2%nat /\
     ys_medianRestDays (currentYear result) == 3 /\
     year (lastYear result) = 2025 /\
     ys_workoutCount (lastYear result) = 2%nat /\
     ys_medianRestDays (lastYear result) == 7 /\
     workoutChange result = 0 /\
     restDaysChange result == 4 /\
     isImproved result = true) /\
  (ofYear 2025 [lastSecond] = [lastSecond] /\
   filterWorkoutsByPeriod Host.Date_parse JsLocalDate.utc now [lastSecond] LastYear = [] /\
   filterWorkoutsByPeriod Host.Date_parse JsLocalDate.utc now [lastSecond] CurrentYear = []).
Proof.
  cbv zeta. split.
  - split; [vm_compute; reflexivity |]. split; [vm_compute; reflexivity |].
    eexists. split; [vm_compute; reflexivity |]. repeat split; reflexivity.
  - repeat split; vm_compute; reflexivity.
Qed.

End HookFacts.

(** ** Maximum per set position *)

Module MaxRepFacts.
Import Types MaxRepUtils.








Section WithParser.
Variable Date_parse : string -> JsDate.time.







End WithParser.

(** One set of pull-ups on a given day of January 2026. *)
Definition pullUps (day reps : Z) : Workout :=
  {| date := DateObj (Some (JsDate.ofYMD 2026 0 day));
     sets := [{| exerciseId := "pull-up"; reps := reps |}] |}.


(** Values 8, 10, 10 on three dates: 10, with the date of the first 10. *)
Lemma max_of_8_10_10 :
  calculateMaxReps Host.Date_parse (JsDate.ofYMD 2026 0 20)
    [pullUps 3 8; pullUps 5 10; pullUps 9 10] "pull-up" 1 (Some threeMonths) =
  Some {| mr_exerciseId := "pull-up"; setPosition := 1; maxReps := 10;
          mr_date := Some (JsDate.ofYMD 2026 0 5) |}.
Proof. vm_compute. reflexivity. Qed.


End MaxRepFacts.

(** ** Training percentage and streaks on concrete logs *)

Module StatsFacts.
Import Types Stats.

(** The percentage of [a] days among [b] is a whole number from 0 to 100. *)
Definition isPercentage (a b : nat) : bool :=
  match percentage a b with
  | Some p => (0 <=? p) && (p <=? 100)
  | None => false
  end.

(** Double arithmetic is checked on every pair of counts that a week, a
    month or a year can give. *)
Lemma percentage_table :
  forallb (fun b => forallb (fun a => isPercentage a b) (seq 0 (S b))) (seq 1 366) = true.
Proof. vm_compute. reflexivity. Qed.

Lemma percentage_bounds (a b : nat) :
  (a <= b)%nat -> (1 <= b <= 366)%nat ->
  exists p, percentage a b = Some p /\ 0 <= p <= 100.
Proof.
  intros Hab Hb. pose proof percentage_table as T.
  rewrite forallb_forall in T. specialize (T b ltac:(apply in_seq; lia)).
  rewrite forallb_forall in T. specialize (T a ltac:(apply in_seq; lia)).
  unfold isPercentage in T. destruct (percentage a b) as [p |]; [| discriminate].
  exists p. split; [reflexivity |].
  apply andb_true_iff in T. destruct T as [T1 T2].
  apply Z.leb_le in T1, T2. lia.
Qed.

Lemma filter_none {A : Type} (f : A -> bool) (l : list A) :
  (forall x, In x l -> f x = false) -> filter f l = [].
Proof.
  induction l as [| x r IH]; intros H; cbn [filter]; [reflexivity |].
  rewrite (H x (or_introl eq_refl)). apply IH. intros y Hy. apply H. now right.
Qed.

Lemma filter_length_le {A : Type} (f : A -> bool) (l : list A) :
  (length (filter f l) <= length l)%nat.
Proof.
  induction l as [| x r IH]; cbn [filter length]; [lia |].
  destruct (f x); cbn [length]; lia.
Qed.

(** A day that starts [j] days after the day of [now] has begun by [now]
    exactly when [j <= 0]. *)
Lemma elapsed_test (now j : Z) :
  ((JsDate.Day now + j) * JsDate.msPerDay <=? now) = (j <=? 0).
Proof.
  pose proof (JsDateFacts.Day_decompose now) as D.
  assert (R : 0 <= JsDate.TimeWithinDay now < JsDate.msPerDay)
    by (apply Z.mod_pos_bound; reflexivity).
  pose proof JsDateFacts.msPerDay_pos as P.
  destruct (j <=? 0) eqn:E.
  - apply Z.leb_le in E. apply Z.leb_le. nia.
  - apply Z.leb_gt in E. apply Z.leb_gt. nia.
Qed.

(** The rank of today in its week, Monday being 0. *)
Definition daysSinceMonday (now : Z) : Z := (JsDate.getDay now + 6) mod 7.

Lemma daysSinceMonday_bounds (now : Z) : 0 <= daysSinceMonday now <= 6.
Proof. unfold daysSinceMonday. Z.div_mod_to_equations. lia. Qed.

Lemma mondayOffset_eq (now : Z) :
  (if JsDate.getDay now =? 0 then -6 else 1 - JsDate.getDay now) = - daysSinceMonday now.
Proof.
  unfold daysSinceMonday.
  assert (H : 0 <= JsDate.getDay now < 7)
    by (unfold JsDate.getDay; apply Z.mod_pos_bound; reflexivity).
  destruct (JsDate.getDay now =? 0) eqn:E.
  - apply Z.eqb_eq in E. now rewrite E.
  - apply Z.eqb_neq in E. Z.div_mod_to_equations. lia.
Qed.

(** The [i]-th day of the week of [now], at midnight. *)
Definition weekDay (now : Z) (i : nat) : Z :=
  (JsDate.Day now - daysSinceMonday now + Z.of_nat i) * JsDate.msPerDay.

Lemma daysInWeek_eq (now : Z) :
  let mondayOffset := if JsDate.getDay now =? 0 then -6 else 1 - JsDate.getDay now in
  let monday :=
    JsDate.startOfDay (JsDate.setDate now (JsDate.getDate now + mondayOffset)) in
  map (fun i => JsDate.setDate monday (JsDate.getDate monday + Z.of_nat i)) (seq 0 7) =
  map (weekDay now) (seq 0 7).
Proof.
  cbv zeta. rewrite mondayOffset_eq.
  unfold JsDate.startOfDay. rewrite JsDateFacts.setDate_shift, JsDateFacts.Day_shift.
  apply map_ext. intros i. rewrite JsDateFacts.setDate_shift. unfold weekDay. ring.
Qed.

Lemma weekDay_elapsed (now : Z) (i : nat) :
  (weekDay now i <=? now) = (Z.of_nat i <=? daysSinceMonday now).
Proof.
  unfold weekDay.
  replace (JsDate.Day now - daysSinceMonday now + Z.of_nat i)
    with (JsDate.Day now + (Z.of_nat i - daysSinceMonday now)) by ring.
  rewrite elapsed_test.
  destruct (Z.of_nat i <=? daysSinceMonday now) eqn:E.
  - apply Z.leb_le in E. apply Z.leb_le. lia.
  - apply Z.leb_gt in E. apply Z.leb_gt. lia.
Qed.

Lemma daysPassedThisWeek_eq (now : Z) :
  length (filter (fun day => day <=? now) (map (weekDay now) (seq 0 7))) =
  Z.to_nat (daysSinceMonday now + 1).
Proof.
  cbn [seq map filter]. rewrite !weekDay_elapsed.
  pose proof (daysSinceMonday_bounds now) as H.
  assert (C : daysSinceMonday now = 0 \/ daysSinceMonday now = 1 \/
              daysSinceMonday now = 2 \/ daysSinceMonday now = 3 \/
              daysSinceMonday now = 4 \/ daysSinceMonday now = 5 \/
              daysSinceMonday now = 6) by lia.
  destruct C as [-> | [-> | [-> | [-> | [-> | [-> | ->]]]]]]; reflexivity.
Qed.

Lemma daysUpTo_enough (now : Z) (j fuel : nat) :
  (j < fuel)%nat ->
  daysUpTo fuel ((JsDate.Day now - Z.of_nat j) * JsDate.msPerDay) now =
  Some (map (fun i => (JsDate.Day now - Z.of_nat j + Z.of_nat i) * JsDate.msPerDay)
            (seq 0 (S j))).
Proof.
  revert fuel. induction j as [| j IH]; intros fuel Hf;
    (destruct fuel as [| fuel]; [lia |]); cbn [daysUpTo].
  - replace (JsDate.Day now - Z.of_nat 0) with (JsDate.Day now + 0) by (simpl; ring).
    rewrite elapsed_test. cbn [Z.leb Z.compare].
    rewrite JsDateFacts.setDate_shift.
    replace ((JsDate.Day now + 0) * JsDate.msPerDay + 1 * JsDate.msPerDay)
      with ((JsDate.Day now + 1) * JsDate.msPerDay) by ring.
    assert (T : ((JsDate.Day now + 1) * JsDate.msPerDay <=? now) = false)
      by (rewrite elapsed_test; reflexivity).
    destruct fuel; cbn [daysUpTo]; rewrite T; cbn [seq map]; do 3 f_equal; simpl; ring.
  - replace (JsDate.Day now - Z.of_nat (S j)) with (JsDate.Day now + - Z.of_nat (S j)) by ring.
    rewrite elapsed_test.
    replace (- Z.of_nat (S j) <=? 0) with true by (symmetry; apply Z.leb_le; lia).
    rewrite JsDateFacts.setDate_shift.
    replace ((JsDate.Day now + - Z.of_nat (S j)) * JsDate.msPerDay + 1 * JsDate.msPerDay)
      with ((JsDate.Day now - Z.of_nat j) * JsDate.msPerDay) by (rewrite Nat2Z.inj_succ; ring).
    rewrite IH by lia. f_equal.
    change (seq 0 (S (S j))) with (0%nat :: seq 1 (S j)).
    cbn [map]. f_equal; [simpl; ring |].
    rewrite <- seq_shift, map_map. apply map_ext. intros i.
    rewrite !Nat2Z.inj_succ. ring.
Qed.

Section WithParser.
Variable Date_parse : string -> JsDate.time.

(** The week percentage is always a number, never below 0: it is the
    rounded ratio of the trained days among the seven days of the week to
    the days elapsed from Monday to today.  It is at most 100 when no
    workout is dated on a later day of the week. *)
Lemma week_percentage_formula (now : Z) (workouts : list Workout) :
  let elapsed := Z.to_nat (daysSinceMonday now + 1) in
  let trained :=
    length (filter (trainedOn Date_parse workouts) (map (weekDay now) (seq 0 7))) in
  (1 <= elapsed <= 7)%nat /\
  getCurrentWeekPercentage Date_parse now workouts = percentage trained elapsed /\
  ((forall i, (elapsed <= i < 7)%nat ->
              trainedOn Date_parse workouts (weekDay now i) = false) ->
   exists p, getCurrentWeekPercentage Date_parse now workouts = Some p /\ 0 <= p <= 100).
Proof.
  intros elapsed trained.
  pose proof (daysSinceMonday_bounds now) as Hk.
  assert (He : (1 <= elapsed <= 7)%nat) by (unfold elapsed; lia).
  assert (E : getCurrentWeekPercentage Date_parse now workouts = percentage trained elapsed).
  { unfold getCurrentWeekPercentage. rewrite daysInWeek_eq, daysPassedThisWeek_eq.
    reflexivity. }
  split; [exact He |]. split; [exact E |].
  intros Hlater. rewrite E. apply percentage_bounds; [| lia].
  unfold trained.
  replace 7%nat with (elapsed + (7 - elapsed))%nat by lia.
  rewrite seq_app, map_app, filter_app, length_app.
  rewrite (filter_none _ (map (weekDay now) (seq (0 + elapsed) (7 - elapsed)))).
  - cbn [length]. rewrite Nat.add_0_r.
    etransitivity; [apply filter_length_le |]. now rewrite length_map, length_seq.
  - intros day Hin. apply in_map_iff in Hin. destruct Hin as (i & <- & Hi).
    apply in_seq in Hi. apply Hlater. lia.
Qed.

(** The month and the year percentage look at elapsed days only: with fuel
    for a whole month, or a whole year, and a clock outside the years 0 to
    99, they return a number between 0 and 100. *)
Lemma month_percentage_bounded (fuel : nat) (now : Z) (workouts : list Workout) :
  (31 <= fuel)%nat ->
  JsDate.getFullYear now < 0 \/ 99 < JsDate.getFullYear now ->
  exists p, getCurrentMonthPercentage Date_parse fuel now workouts = Some (Some p) /\
            0 <= p <= 100.
Proof.
  intros Hfuel Hyear. unfold getCurrentMonthPercentage.
  pose proof (JsDateFacts.getDate_bounds now) as Hd.
  assert (E : JsDate.ofYMD (JsDate.getFullYear now) (JsDate.getMonth now) 1 =
              (JsDate.Day now - Z.of_nat (Z.to_nat (JsDate.getDate now - 1)))
              * JsDate.msPerDay).
  { pose proof (JsDateFacts.MakeDay_shift (JsDate.getFullYear now) (JsDate.getMonth now)
                  (JsDate.getDate now) (1 - JsDate.getDate now)) as S.
    rewrite JsDateFacts.MakeDay_fields in S.
    replace (JsDate.getDate now + (1 - JsDate.getDate now)) with 1 in S by lia.
    unfold JsDate.ofYMD. rewrite (JsDateFacts.fullYear_plain _ Hyear), S, Z2Nat.id by lia.
    f_equal. lia. }
  rewrite E, daysUpTo_enough by lia.
  destruct (percentage_bounds
              (length (filter (trainedOn Date_parse workouts)
                 (map (fun i => (JsDate.Day now - Z.of_nat (Z.to_nat (JsDate.getDate now - 1))
                                 + Z.of_nat i) * JsDate.msPerDay)
                      (seq 0 (S (Z.to_nat (JsDate.getDate now - 1)))))))
              (length (map (fun i => (JsDate.Day now - Z.of_nat (Z.to_nat (JsDate.getDate now - 1))
                                 + Z.of_nat i) * JsDate.msPerDay)
                      (seq 0 (S (Z.to_nat (JsDate.getDate now - 1)))))))
    as (p & Hp & Hb).
  - apply filter_length_le.
  - rewrite length_map, length_seq. lia.
  - exists p. now rewrite Hp.
Qed.

Lemma year_percentage_bounded (fuel : nat) (now : Z) (workouts : list Workout) :
  (366 <= fuel)%nat ->
  JsDate.getFullYear now < 0 \/ 99 < JsDate.getFullYear now ->
  exists p, getCurrentYearPercentage Date_parse fuel now workouts = Some (Some p) /\
            0 <= p <= 100.
Proof.
  intros Hfuel Hyear. unfold getCurrentYearPercentage.
  pose proof (JsDateFacts.year_start_bounds (JsDate.Day now)) as Hy. cbv zeta in Hy.
  fold (JsDate.getFullYear now) in Hy.
  set (back := JsDate.Day now - JsDate.days_from_civil (JsDate.getFullYear now) 1 1) in *.
  assert (E : JsDate.ofYMD (JsDate.getFullYear now) 0 1 =
              (JsDate.Day now - Z.of_nat (Z.to_nat back)) * JsDate.msPerDay).
  { unfold JsDate.ofYMD. rewrite (JsDateFacts.fullYear_plain _ Hyear).
    unfold JsDate.MakeDay.
    change (0 / 12) with 0. change (0 mod 12 + 1) with 1.
    rewrite Z.add_0_r, Z2Nat.id by lia. unfold back. f_equal. lia. }
  rewrite E, daysUpTo_enough by lia.
  destruct (percentage_bounds
              (length (filter (trainedOn Date_parse workouts)
                 (map (fun i => (JsDate.Day now - Z.of_nat (Z.to_nat back)
                                 + Z.of_nat i) * JsDate.msPerDay)
                      (seq 0 (S (Z.to_nat back))))))
              (length (map (fun i => (JsDate.Day now - Z.of_nat (Z.to_nat back)
                                 + Z.of_nat i) * JsDate.msPerDay)
                      (seq 0 (S (Z.to_nat back))))))
    as (p & Hp & Hb).
  - apply filter_length_le.
  - rewrite length_map, length_seq. lia.
  - exists p. now rewrite Hp.
Qed.

End WithParser.

(** One workout at 09:00 on a given day of January 2026. *)
Definition trainedAt (day : Z) : Workout :=
  {| date := DateObj (Some (JsDate.ofYMDhms 2026 0 day 9 0 0));
     sets := [{| exerciseId := "row"; reps := 8 |}] |}.

(** C8, on the code.  Monday 5 January 2026 at noon, with a workout that
    morning and one dated Tuesday 6 (an imported record): two trained days
    of the week against one elapsed day, 200 percent.  The month
    percentage of the same log, which looks at elapsed days only, is 20. *)
Theorem week_percentage_exceeds_100 :
  let now := JsDate.ofYMDhms 2026 0 5 12 0 0 in
  let log := [trainedAt 5; trainedAt 6] in
  JsDate.toDateString (Some now) = "Mon Jan 05 2026"%string /\
  Z.to_nat (daysSinceMonday now + 1) = 1%nat /\
  length (filter (trainedOn Host.Date_parse log) (map (weekDay now) (seq 0 7))) = 2%nat /\
  getCurrentWeekPercentage Host.Date_parse now log = Some 200 /\
  getCurrentMonthPercentage Host.Date_parse 32 now log = Some (Some 20).
Proof. cbv zeta. repeat split; vm_compute; reflexivity. Qed.

End StatsFacts.

Module StreakFacts.
Import Types App.

Lemma streakLoop_bounds (Date_parse : string -> JsDate.time) (turns : nat)
      (sortedWorkouts : list Workout) (checkDate currentStreak : Z) :
  currentStreak <=
  streakLoop Date_parse turns sortedWorkouts checkDate currentStreak <=
  currentStreak + Z.of_nat turns.
Proof.
  revert checkDate currentStreak.
  induction turns as [| turns IH]; intros checkDate currentStreak; cbn [streakLoop].
  - lia.
  - destruct (hasWorkoutOn Date_parse sortedWorkouts checkDate); [| lia].
    specialize (IH (JsDate.setDate checkDate (JsDate.getDate checkDate - 1))
                   (currentStreak + 1)).
    lia.
Qed.

(** The current streak is a count between 0 and 365. *)
Lemma currentStreak_capped (Date_parse : string -> JsDate.time) (now : Z)
      (workouts : list Workout) :
  0 <= currentStreak (calculateStats Date_parse now workouts) <= 365.
Proof.
  unfold calculateStats. cbn [currentStreak].
  destruct (JsArray.sort _ workouts) as [| w ws]; [lia |].
  match goal with |- context [streakLoop ?p ?t ?l ?d ?c] =>
    pose proof (streakLoop_bounds p t l d c) end.
  lia.
Qed.

Definition sessionOn (day : Z) : Workout :=
  {| date := DateObj (Some (JsDate.ofYMDhms 2026 0 day 18 30 0));
     sets := [{| exerciseId := "row"; reps := 8 |}] |}.

(** C10, on the code.  Workouts on Saturday 3, Sunday 4 and Monday 5
    January 2026, read on that Monday: the current streak is 3.  The date
    strings sort as text, "Mon Jan 05 2026" before "Sat Jan 03 2026" before
    "Sun Jan 04 2026", so the scan sees a gap of two days, then one of one
    day, and the longest streak is 2. *)
Theorem longest_streak_below_current :
  let now := JsDate.ofYMDhms 2026 0 5 20 0 0 in
  let log := [sessionOn 3; sessionOn 4; sessionOn 5] in
  let stats := calculateStats Host.Date_parse now log in
  existsb (fun w => isToday now (newDate Host.Date_parse w.(date))) log = true /\
  JsArray.sort defaultCompare
    (SetOf [] (map (fun w => JsDate.toDateString (newDate Host.Date_parse w.(date))) log))
  = ["Mon Jan 05 2026"; "Sat Jan 03 2026"; "Sun Jan 04 2026"]%string /\
  currentStreak stats = 3 /\
  longestStreak stats = 2 /\
  longestStreak stats < currentStreak stats.
Proof. cbv zeta. repeat split; vm_compute; reflexivity. Qed.

End StreakFacts.
